(** * The Codex notification hook, [notification-hook-codex.py]

    A shallow embedding of the hook and the properties its specification
    states.  The hook reads one JSON document from standard input, builds a
    presentation (title, message, priority, tags) for it, appends the event
    name and the git status to the message, and hands the result to the
    [notifications] module, which delivers it and plays a sound.

    Layout: Python strings and values, exceptions, the interface of the
    imported collaborators, the trace monad, the hook itself, a concrete
    runtime for examples, then the theorems.

    One thing is taken as given and is not modelled further: [log] always
    returns. *)

From Stdlib Require Import String Ascii ZArith List DecimalString Bool Lia.
From stdpp Require Import gmap strings.

Set Warnings "-register-all".
Local Open Scope string_scope.
Local Open Scope list_scope.

(** ** Python strings

    A [str] is kept as its UTF-8 bytes.  Concatenation, emptiness and the
    search for an ASCII keyword are the same on bytes and on code points. *)

(** ["\n"] *)
Definition nl : string := String (ascii_of_nat 10) "".

(** [needle in s] *)
Fixpoint contains (needle s : string) : bool :=
  String.prefix needle s ||
  match s with
  | "" => false
  | String _ s' => contains needle s'
  end.

(** [s.endswith(suffix)] *)
Fixpoint endswith (s suffix : string) : bool :=
  String.eqb s suffix ||
  match s with
  | "" => false
  | String _ s' => endswith s' suffix
  end.

(** [sep.join(items)] on a list of [str]. *)
Definition join (sep : string) (items : list string) : string :=
  String.concat sep items.

(** [str(n)] for an [int]. *)
Definition str_of_int (n : Z) : string :=
  NilZero.string_of_int (Z.to_int n).

Definition byte (c : ascii) : N := N_of_ascii c.

Definition lower_byte (c : ascii) : ascii :=
  if (65 <=? byte c)%N && (byte c <=? 90)%N
  then ascii_of_N (byte c + 32) else c.

(** [s.lower()], as far as ASCII letters are concerned: the letters A-Z
    are folded, and so are the only two other code points whose lower case
    contains an ASCII letter, U+212A KELVIN SIGN (bytes E2 84 AA, lower
    case [k]) and U+0130 (bytes C4 B0, lower case [i] followed by U+0307,
    bytes CC 87).  All other bytes are kept: a case mapping between two
    characters outside ASCII cannot create or destroy an occurrence of one
    of the ASCII keywords that the hook looks for. *)
Fixpoint lower (s : string) : string :=
  match s with
  | "" => ""
  | String c1 r1 =>
      match r1 with
      | String c2 r2 =>
          if (byte c1 =? 196)%N && (byte c2 =? 176)%N then
            String "i" (String (ascii_of_N 204) (String (ascii_of_N 135) (lower r2)))
          else
            match r2 with
            | String c3 r3 =>
                if (byte c1 =? 226)%N && (byte c2 =? 132)%N && (byte c3 =? 170)%N
                then String "k" (lower r3)
                else String (lower_byte c1) (lower r1)
            | "" => String (lower_byte c1) (lower r1)
            end
      | "" => String (lower_byte c1) ""
      end
  end.

(** The characters of a [str]: every byte that is not a UTF-8 continuation
    byte (10xxxxxx) starts a new character. *)
Definition is_continuation (c : ascii) : bool :=
  (128 <=? byte c)%N && (byte c <? 192)%N.

Fixpoint chars_from (s : string) : string * list string :=
  match s with
  | "" => ("", [])
  | String c r =>
      let '(k, cs) := chars_from r in
      if is_continuation c then (String c k, cs) else ("", String c k :: cs)
  end.

Definition chars (s : string) : list string :=
  let '(k, cs) := chars_from s in
  match k with "" => cs | _ => k :: cs end.

(** ** Python values read from JSON *)

(** A [float] is seen by the hook through two observations only: whether
    it is zero (its truth value) and the text [str] prints for it. *)
Record float_obs := { float_is_zero : bool; float_str : string }.

Inductive json : Type :=
| JNull
| JBool (b : bool)
| JInt (n : Z)
| JFloat (f : float_obs)
| JStr (s : string)
| JArr (l : list json)
| JObj (m : gmap string json).

(** [type(v).__name__] *)
Definition type_name (v : json) : string :=
  match v with
  | JNull => "NoneType"
  | JBool _ => "bool"
  | JInt _ => "int"
  | JFloat _ => "float"
  | JStr _ => "str"
  | JArr _ => "list"
  | JObj _ => "dict"
  end.

(** [bool(v)], the test of [if v:], [not v] and [v or d]. *)
Definition truthy (v : json) : bool :=
  match v with
  | JNull => false
  | JBool b => b
  | JInt n => negb (n =? 0)%Z
  | JFloat f => negb (float_is_zero f)
  | JStr s => negb (String.eqb s "")
  | JArr l => match l with [] => false | _ => true end
  | JObj m => negb (bool_decide (m = ∅))
  end.

(** [v or d] *)
Definition py_or (v d : json) : json := if truthy v then v else d.

(** [v == "literal"] *)
Definition py_eq (v : json) (literal : string) : bool :=
  match v with
  | JStr s => String.eqb s literal
  | _ => false
  end.

(** ** Exceptions *)

(** An exception, by the name of its class and the text of [str(e)]:
    [Exn] for the subclasses of [Exception], [BaseExn] for the others
    ([KeyboardInterrupt], [SystemExit], [GeneratorExit]), which a clause
    [except Exception] does not catch. *)
Inductive exn :=
| Exn (class_name text : string)
| BaseExn (class_name text : string).

Definition exn_class (e : exn) : string :=
  match e with Exn c _ | BaseExn c _ => c end.
Definition exn_str (e : exn) : string :=
  match e with Exn _ t | BaseExn _ t => t end.

(** [isinstance(e, Exception)] *)
Definition is_exception (e : exn) : bool :=
  match e with Exn _ _ => true | BaseExn _ _ => false end.

Inductive result (A : Type) : Type :=
| Ok (a : A)
| Raise (e : exn).
Arguments Ok {A} a.
Arguments Raise {A} e.

#[global] Instance result_ret : MRet result := λ A a, Ok a.
#[global] Instance result_bind : MBind result := λ A B f m,
  match m with
  | Ok a => f a
  | Raise e => Raise e
  end.

Definition AttributeError (v : json) (attr : string) : exn :=
  Exn "AttributeError"
      ("'" +:+ type_name v +:+ "' object has no attribute '" +:+ attr +:+ "'").

(** [d.get(key, default)] on a dict, and on any value. *)
Definition dict_get (m : gmap string json) (key : string) (default : json) : json :=
  match m !! key with
  | Some v => v
  | None => default
  end.

Definition py_get (d : json) (key : string) (default : json) : result json :=
  match d with
  | JObj m => Ok (dict_get m key default)
  | _ => Raise (AttributeError d "get")
  end.

(** [s.lower()] on a value. *)
Definition py_lower (v : json) : result string :=
  match v with
  | JStr s => Ok (lower s)
  | _ => Raise (AttributeError v "lower")
  end.

(** [v[:n]], as the list of the items of the slice.  Slicing a dict raises
    [TypeError] up to Python 3.11 and [KeyError] from 3.12 on. *)
Definition py_slice (v : json) (n : nat) : result (list json) :=
  match v with
  | JArr l => Ok (take n l)
  | JStr s => Ok (JStr <$> take n (chars s))
  | JObj _ => Raise (Exn "TypeError" "unhashable type: 'slice'")
  | _ => Raise (Exn "TypeError"
                    ("'" +:+ type_name v +:+ "' object is not subscriptable"))
  end.

(** [sep.join(items)]: every item has to be a [str]. *)
Fixpoint py_join_items (i : nat) (items : list json) : result (list string) :=
  match items with
  | [] => Ok []
  | JStr s :: rest => ss ← py_join_items (S i) rest; mret (s :: ss)
  | v :: _ =>
      Raise (Exn "TypeError"
                 ("sequence item " +:+ str_of_int (Z.of_nat i) +:+
                  ": expected str instance, " +:+ type_name v +:+ " found"))
  end.

Definition py_join (sep : string) (items : list json) : result string :=
  ss ← py_join_items 0 items; mret (join sep ss).

(** [len(v)] *)
Definition py_len (v : json) : result Z :=
  match v with
  | JArr l => Ok (Z.of_nat (length l))
  | JStr s => Ok (Z.of_nat (length (chars s)))
  | JObj m => Ok (Z.of_nat (size m))
  | _ => Raise (Exn "TypeError"
                    ("object of type '" +:+ type_name v +:+ "' has no len()"))
  end.

(** ** The collaborators imported from [notifications] *)

(** Modelled from the spec: the project context that [get_project_context]
    returns is a record with at least a [git_status] field, a string that
    is "clean" or describes the dirty state.  The module [notifications]
    that builds it is not part of the sources. *)
Record ProjectContext := {
  git_status : string;
  other_fields : gmap string json
}.

(** A call to a collaborator, with its arguments. *)
Inductive call :=
| CallLog (message hook_name : string)
| CallGetProjectContext (cwd : json) (hook_name : string)
| CallSendNotification (message title priority : string) (tags : list string)
    (project_info : ProjectContext) (session_id : json) (hook_name : string)
| CallPlayAudio (audio_file hook_name : string).

(** What the imported names stand for: the two constants, and for each
    function what a call with given arguments returns or raises. *)
Class Notifications := {
  PROJECT_TITLE : string;
  PROJECT_TAG : string;
  get_project_context_ret : json → string → result ProjectContext;
  send_notification_ret :
    string → string → string → list string → ProjectContext → json → string →
    result bool;
  play_audio_ret : string → string → result unit
}.

(** What the hook uses of the Python runtime and library: [json.loads],
    [repr] (which [str] falls back on for lists and dicts) and
    [traceback.format_exc]. *)
Class Python := {
  json_loads : string → result json;
  py_repr : json → string;
  format_exc : exn → string
}.

(** ** Effects: a trace of collaborator calls, and exceptions *)

Definition M (A : Type) : Type := (list call * result A)%type.

#[global] Instance M_ret : MRet M := λ A a, ([], Ok a).
#[global] Instance M_bind : MBind M := λ A B f m,
  match m with
  | (t, Ok a) => let '(t', r) := f a in (t ++ t', r)
  | (t, Raise e) => (t, Raise e)
  end.

(** A computation that calls no collaborator. *)
Definition lift {A} (r : result A) : M A := ([], r).

(** [try: body except Exception as e: handler]: an exception that is not
    an [Exception] goes through. *)
Definition try_except (body : M unit) (handler : exn → M unit) : M unit :=
  match body with
  | (t, Ok a) => (t, Ok a)
  | (t, Raise e) =>
      if is_exception e then let '(t', r) := handler e in (t ++ t', r)
      else (t, Raise e)
  end.

Definition trace {A} (m : M A) : list call := fst m.
Definition outcome {A} (m : M A) : result A := snd m.

(** [log] writes to the log sink and returns. *)
Definition log (message hook_name : string) : M unit :=
  ([CallLog message hook_name], Ok tt).

(** Observations on a trace. *)

(** What was handed to [send_notification], in order: message, title,
    priority and tags of every call. *)
Definition notifications_sent (t : list call)
  : list (string * string * string * list string) :=
  flat_map (λ c, match c with
                 | CallSendNotification m ti p tg _ _ _ => [(m, ti, p, tg)]
                 | _ => []
                 end) t.

(** The audio files handed to [play_audio], in order. *)
Definition audio_played (t : list call) : list string :=
  flat_map (λ c, match c with
                 | CallPlayAudio f _ => [f]
                 | _ => []
                 end) t.

(** ** Constants of the hook *)

Definition HOOK_NAME : string := "notification-hook".
Definition ENABLE_NOTIFICATIONS : bool := true.
Definition NOTIFICATION_AUDIO_FILE : string := "toasty.mp3".

(** ** The hook *)

Section Hook.
Context `{py : Python} `{nf : Notifications}.

(** [str(v)], which is also what an f-string prints for [{v}]. *)
Definition py_str (v : json) : string :=
  match v with
  | JNull => "None"
  | JBool true => "True"
  | JBool false => "False"
  | JInt n => str_of_int n
  | JFloat f => float_str f
  | JStr s => s
  | JArr _ | JObj _ => py_repr v
  end.

Definition get_project_context (cwd : json) (hook_name : string)
  : M ProjectContext :=
  ([CallGetProjectContext cwd hook_name], get_project_context_ret cwd hook_name).

Definition send_notification (message title priority : string)
    (tags : list string) (project_info : ProjectContext) (session_id : json)
    (hook_name : string) : M bool :=
  ([CallSendNotification message title priority tags project_info session_id
      hook_name],
   send_notification_ret message title priority tags project_info session_id
     hook_name).

Definition play_audio (audio_file hook_name : string) : M unit :=
  ([CallPlayAudio audio_file hook_name], play_audio_ret audio_file hook_name).

(** Returns (priority, title, tags). *)
Definition analyze_message_content (message hook_event_name : json)
  : result (string * string * list string) :=
  message_lower ← py_lower message;
  let project_title := PROJECT_TITLE in
  let project_tag := PROJECT_TAG in
  if contains "permission" message_lower || contains "approval" message_lower
  then mret ("high", project_title +:+ ": Permission Required",
             ["warning"; "key"; project_tag])
  else if contains "error" message_lower || contains "failed" message_lower
  then mret ("high", project_title +:+ ": Error Detected",
             ["red_circle"; "warning"; project_tag])
  else if contains "waiting" message_lower || contains "idle" message_lower
  then mret ("low", project_title +:+ ": Waiting for Input",
             ["clock"; "zzz"; project_tag])
  else if contains "blocked" message_lower || contains "hook" message_lower
  then mret ("default", project_title +:+ ": Hook Alert",
             ["stop_sign"; "warning"; project_tag])
  else if contains "completed" message_lower || contains "finished" message_lower
  then mret ("default", project_title +:+ ": Task Completed",
             ["white_check_mark"; "gear"; project_tag])
  else mret ("default", project_title +:+ ": Notification",
             ["bell"; "info"; project_tag]).

Definition format_notification_message (original_message hook_event_name : json)
    (project_info : ProjectContext) : string :=
  let event_context :=
    if truthy hook_event_name then " (" +:+ py_str hook_event_name +:+ ")"
    else "" in
  let status :=
    if negb (String.eqb (git_status project_info) "clean")
    then " • " +:+ git_status project_info
    else "" in
  py_str original_message +:+ event_context +:+ status.

(** The list [message_lines] of [build_tool_permission_notification] at the
    point where it is joined. *)
Definition tool_permission_lines (hook_data : json) : result (list string) :=
  approval_type ← py_get hook_data "approval_type" (JStr "unknown");
  tool_name ← py_get hook_data "tool_name" (JStr "unknown");
  reason ← py_get hook_data "reason" JNull;
  let message_lines := ["Claude needs permission to use " +:+ py_str tool_name] in
  message_lines ←
    (if py_eq approval_type "exec" then
       command ← py_get hook_data "command" JNull;
       if truthy command
       then mret (message_lines ++ ["Command: " +:+ py_str command])
       else mret message_lines
     else if py_eq approval_type "patch" then
       changes ← py_get hook_data "changes" JNull;
       let changes := py_or changes (JArr []) in
       if truthy changes then
         first ← py_slice changes 3;
         preview ← py_join ", " first;
         let message_lines := message_lines ++ ["Files: " +:+ preview] in
         n ← py_len changes;
         let remaining := (n - 3)%Z in
         if (0 <? remaining)%Z
         then mret (message_lines ++ ["(+" +:+ str_of_int remaining +:+ " more)"])
         else mret message_lines
       else mret message_lines
     else mret message_lines);
  if truthy reason
  then mret (message_lines ++ ["Reason: " +:+ py_str reason])
  else mret message_lines.

(** Returns (title, message, priority, tags). *)
Definition build_tool_permission_notification (hook_data : json)
  : result (string * string * string * list string) :=
  let title := PROJECT_TITLE +:+ ": Permission Required" in
  message_lines ← tool_permission_lines hook_data;
  let message := join nl message_lines in
  let priority := "high" in
  let tags := ["warning"; "key"; PROJECT_TAG] in
  mret (title, message, priority, tags).

(** Returns (title, message, priority, tags). *)
Definition build_idle_timeout_notification (hook_data : json)
  : result (string * string * string * list string) :=
  duration ← py_get hook_data "idle_duration_seconds" (JInt 60);
  let title := PROJECT_TITLE +:+ ": Session Idle" in
  let message := "Claude session idle for " +:+ py_str duration +:+ "s" in
  let priority := "default" in
  let tags := ["clock"; PROJECT_TAG] in
  mret (title, message, priority, tags).

(** The branch of [main] on the event type: returns the presentation and
    the event name that the enrichment step will use. *)
Definition build_presentation (hook_input hook_type : json)
  : result (string * json * string * list string * json) :=
  if py_eq hook_type "tool-permission-request" then
    '(title, notification_body, priority, tags) ←
      build_tool_permission_notification hook_input;
    let hook_event_name := hook_type in
    mret (title, JStr notification_body, priority, tags, hook_event_name)
  else if py_eq hook_type "prompt-idle-timeout" then
    '(title, notification_body, priority, tags) ←
      build_idle_timeout_notification hook_input;
    let hook_event_name := hook_type in
    mret (title, JStr notification_body, priority, tags, hook_event_name)
  else
    raw_message ← py_get hook_input "message" (JStr "");
    hook_event_name ←
      py_get hook_input "hook_event_name" (py_or hook_type (JStr "notification"));
    let raw_message :=
      if negb (truthy raw_message)
      then JStr ("Codex event: " +:+ py_str hook_event_name)
      else raw_message in
    '(priority, title, tags) ←
      analyze_message_content raw_message hook_event_name;
    let notification_body := raw_message in
    mret (title, notification_body, priority, tags, hook_event_name).

(** The [try] block of [main]. *)
Definition main_try (stdin : string) : M unit :=
  if negb ENABLE_NOTIFICATIONS then mret tt else
  hook_input ← lift (json_loads stdin);
  hook_type ← lift (py_get hook_input "type" (JStr ""));
  session_id ← lift (py_get hook_input "session_id" (JStr "unknown"));
  cwd ← lift (py_get hook_input "cwd" (JStr ""));
  log ("Processing Notification hook for session " +:+ py_str session_id)
      HOOK_NAME;;
  log ("Event: " +:+ py_str hook_type) HOOK_NAME;;
  project_info ← get_project_context cwd HOOK_NAME;
  '(title, notification_body, priority, tags, hook_event_name) ←
    lift (build_presentation hook_input hook_type);
  let formatted_message :=
    format_notification_message notification_body hook_event_name project_info in
  log ("Message: " +:+ py_str notification_body) HOOK_NAME;;
  success ← send_notification formatted_message title priority tags
              project_info session_id HOOK_NAME;
  if success : bool then
    log "Notification sent successfully" HOOK_NAME;;
    play_audio NOTIFICATION_AUDIO_FILE HOOK_NAME
  else
    log "Failed to send notification" HOOK_NAME.

(** The [except Exception as e] block of [main]. *)
Definition main_except (e : exn) : M unit :=
  log ("✗ Hook error: " +:+ exn_str e) HOOK_NAME;;
  log ("✗ Exception type: " +:+ exn_class e) HOOK_NAME;;
  log ("✗ Exception details: " +:+ exn_str e) HOOK_NAME;;
  log "✗ Full traceback:" HOOK_NAME;;
  log (format_exc e) HOOK_NAME.

Definition main (stdin : string) : M unit :=
  try_except (main_try stdin) main_except.

(** ** The classification and the event name, as the specification words them *)

(** The five keyword rules in the order of the specification: the
    keywords of a rule, then its priority, title suffix and icon tags. *)
Definition keyword_rules
  : list (list string * (string * string * list string)) := [
  (["permission"; "approval"], ("high", "Permission Required", ["warning"; "key"]));
  (["error"; "failed"], ("high", "Error Detected", ["red_circle"; "warning"]));
  (["waiting"; "idle"], ("low", "Waiting for Input", ["clock"; "zzz"]));
  (["blocked"; "hook"], ("default", "Hook Alert", ["stop_sign"; "warning"]));
  (["completed"; "finished"],
   ("default", "Task Completed", ["white_check_mark"; "gear"]))
].

Definition fallback_rule : string * string * list string :=
  ("default", "Notification", ["bell"; "info"]).

(** The first rule one of whose keywords occurs in [text] wins. *)
Fixpoint first_match (text : string)
    (rules : list (list string * (string * string * list string)))
  : string * string * list string :=
  match rules with
  | [] => fallback_rule
  | (keywords, verdict) :: rest =>
      if existsb (λ k, contains k text) keywords then verdict
      else first_match text rest
  end.

Definition classify_by_rules (message : string) : string * string * list string :=
  let '(priority, suffix, icons) := first_match (lower message) keyword_rules in
  (priority, PROJECT_TITLE +:+ ": " +:+ suffix, icons ++ [PROJECT_TAG]).

(** The event name of the generic path: the [hook_event_name] field, else
    the type when there is one and it is not empty, else "notification". *)
Definition event_name_chain (d : gmap string json) : json :=
  match d !! "hook_event_name" with
  | Some name => name
  | None =>
      match d !! "type" with
      | Some t => if truthy t then t else JStr "notification"
      | None => JStr "notification"
      end
  end.

(** The text that the enrichment step puts after the message. *)
Definition event_suffix (hook_event_name : json) : string :=
  if truthy hook_event_name then " (" +:+ py_str hook_event_name +:+ ")" else "".

Definition status_suffix (project_info : ProjectContext) : string :=
  if String.eqb (git_status project_info) "clean" then ""
  else " • " +:+ git_status project_info.

(** The generic path of the driver is the one taken by every event whose
    type is neither of the two special ones. *)
Definition is_generic (hook_type : json) : bool :=
  negb (py_eq hook_type "tool-permission-request") &&
  negb (py_eq hook_type "prompt-idle-timeout").

(** Some call to [send_notification] in the trace reported success. *)
Definition reported_success (t : list call) : bool :=
  existsb (λ c, match c with
                | CallSendNotification m ti p tg pi sid h =>
                    match send_notification_ret m ti p tg pi sid h with
                    | Ok true => true
                    | _ => false
                    end
                | _ => false
                end) t.

(** Every call to [play_audio] in the trace comes after a call to
    [send_notification] that reported success; [ok] tells whether one has
    been seen already. *)
Fixpoint audio_only_after_success (ok : bool) (t : list call) : bool :=
  match t with
  | [] => true
  | CallPlayAudio _ _ :: rest => ok && audio_only_after_success ok rest
  | CallSendNotification m ti p tg pi sid h :: rest =>
      audio_only_after_success
        (match send_notification_ret m ti p tg pi sid h with
         | Ok true => true
         | _ => ok
         end) rest
  | _ :: rest => audio_only_after_success ok rest
  end.

(** [line] is one of the lines of [text]: it stands between the start of
    the text or a newline, and a newline or the end of the text. *)
Definition is_line_of (line text : string) : Prop :=
  ∃ before after,
    text = before +:+ line +:+ after ∧
    (before = "" ∨ ∃ b, before = b +:+ nl) ∧
    (after = "" ∨ ∃ a, after = nl +:+ a).

End Hook.

(** ** A concrete runtime, for running the hook on examples *)

(** Writes a JSON text with single quotes in place of double quotes. *)
Fixpoint dq (s : string) : string :=
  match s with
  | "" => ""
  | String c r => String (if Ascii.eqb c "'" then ascii_of_nat 34 else c) (dq r)
  end.

(** The events of the examples: the text on standard input and the value
    that [json.loads] returns for it. *)
Definition idle_doc : string :=
  dq "{'type': 'prompt-idle-timeout', 'idle_duration_seconds': 45, 'session_id': 's1', 'cwd': '/tmp'}".
Definition idle_event : gmap string json :=
  list_to_map [("type", JStr "prompt-idle-timeout");
               ("idle_duration_seconds", JInt 45);
               ("session_id", JStr "s1"); ("cwd", JStr "/tmp")].

Definition completed_doc : string :=
  dq "{'message': 'Task completed successfully', 'cwd': '/tmp'}".
Definition completed_event : gmap string json :=
  list_to_map [("message", JStr "Task completed successfully");
               ("cwd", JStr "/tmp")].

Definition exec_doc : string :=
  dq "{'type': 'tool-permission-request', 'approval_type': 'exec', 'tool_name': 'shell', 'command': 'ls -la', 'cwd': '/tmp'}".
Definition exec_event : gmap string json :=
  list_to_map [("type", JStr "tool-permission-request");
               ("approval_type", JStr "exec"); ("tool_name", JStr "shell");
               ("command", JStr "ls -la"); ("cwd", JStr "/tmp")].

Definition empty_command_doc : string :=
  dq "{'type': 'tool-permission-request', 'approval_type': 'exec', 'command': ''}".
Definition empty_command_event : gmap string json :=
  list_to_map [("type", JStr "tool-permission-request");
               ("approval_type", JStr "exec"); ("command", JStr "")].

Definition patch_doc : string :=
  dq "{'type': 'tool-permission-request', 'approval_type': 'patch', 'changes': ['a.py', 'b.py', 'c.py', 'd.py', 'e.py'], 'cwd': '/work/dirty'}".
Definition patch_event : gmap string json :=
  list_to_map [("type", JStr "tool-permission-request");
               ("approval_type", JStr "patch");
               ("changes", JArr (JStr <$> ["a.py"; "b.py"; "c.py"; "d.py"; "e.py"]));
               ("cwd", JStr "/work/dirty")].

Definition clean_text_doc : string :=
  dq "{'message': 'build • clean', 'hook_event_name': ''}".
Definition clean_text_event : gmap string json :=
  list_to_map [("message", JStr "build • clean"); ("hook_event_name", JStr "")].

Definition session_start_doc : string := dq "{'type': 'session-start'}".
Definition session_start_event : gmap string json :=
  list_to_map [("type", JStr "session-start")].

Definition permission_doc : string :=
  dq "{'message': 'Permission granted, task completed'}".
Definition permission_event : gmap string json :=
  list_to_map [("message", JStr "Permission granted, task completed")].

Definition demo_documents : list (string * json) := [
  (idle_doc, JObj idle_event);
  (completed_doc, JObj completed_event);
  (exec_doc, JObj exec_event);
  (empty_command_doc, JObj empty_command_event);
  (patch_doc, JObj patch_event);
  (clean_text_doc, JObj clean_text_event);
  (session_start_doc, JObj session_start_event);
  (permission_doc, JObj permission_event);
  (dq "[1, 2]", JArr [JInt 1; JInt 2])
].

Fixpoint assoc {A} (k : string) (l : list (string * A)) : option A :=
  match l with
  | [] => None
  | (k', v) :: r => if String.eqb k k' then Some v else assoc k r
  end.

(** [json.loads] on the documents above; any other text is rejected. *)
Definition demo_json_loads (s : string) : result json :=
  match assoc s demo_documents with
  | Some v => Ok v
  | None => Raise (Exn "JSONDecodeError" "Expecting value: line 1 column 1 (char 0)")
  end.

Definition demo_python : Python := {|
  json_loads := demo_json_loads;
  py_repr := λ _, "<repr>";
  format_exc := λ e, "Traceback (most recent call last): " +:+ exn_class e
|}.

(** A project "Codex" whose working tree is clean, except under
    /work/dirty; every delivery reports [delivered]. *)
Definition demo_notifications (delivered : bool) : Notifications := {|
  PROJECT_TITLE := "Codex";
  PROJECT_TAG := "codex";
  get_project_context_ret := λ cwd _,
    Ok {| git_status := if py_eq cwd "/work/dirty" then "2 modified" else "clean";
          other_fields := ∅ |};
  send_notification_ret := λ _ _ _ _ _ _ _, Ok delivered;
  play_audio_ret := λ _ _, Ok tt
|}.

Definition demo_delivering : Notifications := demo_notifications true.

(** ** Descriptions used by the further properties *)

Definition is_str (v : json) : bool :=
  match v with JStr _ => true | _ => false end.

(** The hook name that a collaborator call carries. *)
Definition hook_name_of (c : call) : string :=
  match c with
  | CallLog _ h => h
  | CallGetProjectContext _ h => h
  | CallSendNotification _ _ _ _ _ _ h => h
  | CallPlayAudio _ h => h
  end.

Section Descriptions.
Context `{py : Python} `{nf : Notifications}.

(** The first line of a permission message, and the lines that the
    [reason] field adds at its end. *)
Definition permission_header (d : gmap string json) : string :=
  "Claude needs permission to use " +:+
  py_str (dict_get d "tool_name" (JStr "unknown")).

Definition reason_lines (d : gmap string json) : list string :=
  if truthy (dict_get d "reason" JNull)
  then ["Reason: " +:+ py_str (dict_get d "reason" JNull)]
  else [].

(** The calls of a run up to and including the delivery. *)
Definition calls_until_delivery (d : gmap string json) (pi : ProjectContext)
    (title : string) (body : json) (priority : string) (tags : list string)
    (name : json) : list call :=
  [CallLog ("Processing Notification hook for session " +:+
            py_str (dict_get d "session_id" (JStr "unknown"))) HOOK_NAME;
   CallLog ("Event: " +:+ py_str (dict_get d "type" (JStr ""))) HOOK_NAME;
   CallGetProjectContext (dict_get d "cwd" (JStr "")) HOOK_NAME;
   CallLog ("Message: " +:+ py_str body) HOOK_NAME;
   CallSendNotification (format_notification_message body name pi) title
     priority tags pi (dict_get d "session_id" (JStr "unknown")) HOOK_NAME].

(** The calls of a run up to and including the fetch of the project
    context. *)
Definition calls_until_context (d : gmap string json) : list call :=
  [CallLog ("Processing Notification hook for session " +:+
            py_str (dict_get d "session_id" (JStr "unknown"))) HOOK_NAME;
   CallLog ("Event: " +:+ py_str (dict_get d "type" (JStr ""))) HOOK_NAME;
   CallGetProjectContext (dict_get d "cwd" (JStr "")) HOOK_NAME].

End Descriptions.

(** Further events and runtimes for the examples. *)
Definition short_patch_event : gmap string json :=
  list_to_map [("type", JStr "tool-permission-request");
               ("approval_type", JStr "patch"); ("tool_name", JStr "apply_patch");
               ("changes", JArr (JStr <$> ["a.py"; "b.py"]));
               ("reason", JStr "refactor")].

Definition mixed_patch_event : gmap string json :=
  list_to_map [("type", JStr "tool-permission-request");
               ("approval_type", JStr "patch");
               ("changes", JArr ((JStr <$> ["a.py"; "b.py"; "c.py"])
                                 ++ [JInt 7; JNull]))].

Definition bad_patch_doc : string :=
  dq "{'type': 'tool-permission-request', 'approval_type': 'patch', 'changes': ['a.py', 7]}".
Definition bad_patch_event : gmap string json :=
  list_to_map [("type", JStr "tool-permission-request");
               ("approval_type", JStr "patch");
               ("changes", JArr [JStr "a.py"; JInt 7])].

Definition review_event : gmap string json :=
  list_to_map [("type", JStr "tool-permission-request");
               ("approval_type", JStr "review"); ("command", JStr "ls");
               ("changes", JArr [JStr "a.py"])].

Definition number_message_doc : string := dq "{'message': 5}".
Definition number_message_event : gmap string json :=
  list_to_map [("message", JInt 5)].

Definition empty_message_doc : string :=
  dq "{'type': 'build', 'message': '', 'cwd': '/work/dirty'}".
Definition empty_message_event : gmap string json :=
  list_to_map [("type", JStr "build"); ("message", JStr "");
               ("cwd", JStr "/work/dirty")].

Definition extra_documents : list (string * json) := [
  (bad_patch_doc, JObj bad_patch_event);
  (number_message_doc, JObj number_message_event);
  (empty_message_doc, JObj empty_message_event)
].

Definition extra_python : Python := {|
  json_loads := λ s,
    match assoc s extra_documents with
    | Some v => Ok v
    | None => demo_json_loads s
    end;
  py_repr := λ _, "<repr>";
  format_exc := λ e, "Traceback (most recent call last): " +:+ exn_class e
|}.

(** A project in which the delivery is interrupted from the keyboard. *)
Definition interrupted_notifications : Notifications := {|
  PROJECT_TITLE := "Codex";
  PROJECT_TAG := "codex";
  get_project_context_ret := λ _ _,
    Ok {| git_status := "clean"; other_fields := ∅ |};
  send_notification_ret := λ _ _ _ _ _ _ _,
    Raise (BaseExn "KeyboardInterrupt" "");
  play_audio_ret := λ _ _, Ok tt
|}.

(** A project whose collaborators fail: [get_project_context] when
    [context_fails], else [send_notification] when [send_fails], else
    [play_audio]. *)
Definition failing_notifications (context_fails send_fails : bool)
  : Notifications := {|
  PROJECT_TITLE := "Codex";
  PROJECT_TAG := "codex";
  get_project_context_ret := λ _ _,
    if context_fails then Raise (Exn "OSError" "git not found")
    else Ok {| git_status := "clean"; other_fields := ∅ |};
  send_notification_ret := λ _ _ _ _ _ _ _,
    if send_fails then Raise (Exn "ConnectionError" "ntfy unreachable")
    else Ok true;
  play_audio_ret := λ _ _, Raise (Exn "FileNotFoundError" "toasty.mp3")
|}.

(** [s] starts with the byte [n]. *)
Definition starts_with_byte (n : N) (s : string) : bool :=
  match s with
  | String c _ => (byte c =? n)%N
  | "" => false
  end.

(** * Properties *)

(** ** Strings *)

Lemma append_cons (c : ascii) (s t : string) :
  String c s +:+ t = String c (s +:+ t).
Proof. reflexivity. Qed.

Lemma append_nil_l (s : string) : "" +:+ s = s.
Proof. reflexivity. Qed.

Lemma append_nil_r (s : string) : s +:+ "" = s.
Proof.
  induction s as [|c s IH]; [reflexivity|].
  by rewrite append_cons, IH.
Qed.

Lemma append_assoc (a b c : string) : (a +:+ b) +:+ c = a +:+ (b +:+ c).
Proof.
  induction a as [|x a IH]; [reflexivity|].
  by rewrite !append_cons, IH.
Qed.

Lemma prefix_append (p s : string) :
  String.prefix p s = true ↔ ∃ rest, s = p +:+ rest.
Proof.
  revert s. induction p as [|c p IH]; intros s.
  - split; [intros _; by exists s | by destruct s].
  - destruct s as [|c' s]; simpl.
    + split; [discriminate | by intros [rest ?]].
    + destruct (ascii_dec c c') as [->|Hne].
      * rewrite IH. split; intros [rest H]; exists rest.
        -- by rewrite append_cons, H.
        -- rewrite append_cons in H. by injection H.
      * split; [discriminate |].
        intros [rest H]. rewrite append_cons in H. injection H. congruence.
Qed.

Lemma contains_unfold (needle s : string) :
  contains needle s =
  String.prefix needle s ||
  match s with "" => false | String _ s' => contains needle s' end.
Proof. by destruct s. Qed.

Lemma endswith_unfold (s suffix : string) :
  endswith s suffix =
  String.eqb s suffix ||
  match s with "" => false | String _ s' => endswith s' suffix end.
Proof. by destruct s. Qed.

(** [contains] decides the occurrence of [needle] somewhere in [s]. *)
Lemma contains_spec (needle s : string) :
  contains needle s = true ↔ ∃ before after, s = before +:+ needle +:+ after.
Proof.
  induction s as [|c s IH]; rewrite contains_unfold.
  - rewrite orb_false_r, prefix_append. split.
    + intros [rest H]. by exists "", rest.
    + intros [[|? ?] [after H]]; [by exists after | discriminate].
  - rewrite orb_true_iff, prefix_append, IH. split.
    + intros [[rest H] | (before & after & H)].
      * by exists "", rest.
      * exists (String c before), after. by rewrite append_cons, H.
    + intros ([|c' before] & after & H).
      * left. by exists after.
      * right. exists before, after. rewrite append_cons in H. by injection H.
Qed.

Lemma endswith_spec (s suffix : string) :
  endswith s suffix = true ↔ ∃ before, s = before +:+ suffix.
Proof.
  induction s as [|c s IH]; rewrite endswith_unfold.
  - rewrite orb_false_r, String.eqb_eq. split.
    + intros <-. by exists "".
    + intros [[|? ?] H]; [done | discriminate].
  - rewrite orb_true_iff, String.eqb_eq, IH. split.
    + intros [<- | [before ->]]; [by exists "" | by exists (String c before)].
    + intros [[|c' before] H]; [by left | right].
      rewrite append_cons in H. injection H as _ ->. by exists before.
Qed.

Lemma endswith_append (a b : string) : endswith (a +:+ b) b = true.
Proof. apply endswith_spec. by exists a. Qed.

Lemma join_cons (sep x y : string) (rest : list string) :
  join sep (x :: y :: rest) = x +:+ sep +:+ join sep (y :: rest).
Proof. reflexivity. Qed.

(** An item of a list that is joined with newlines is a line of the
    result. *)
Lemma join_nl_is_line (line : string) (lines : list string) :
  In line lines → is_line_of line (join nl lines).
Proof.
  induction lines as [|x rest IH]; [intros []|].
  intros [-> | Hin].
  - destruct rest as [|y rest].
    + exists "", "". rewrite append_nil_r. auto.
    + exists "", (nl +:+ join nl (y :: rest)). rewrite join_cons.
      split; [reflexivity|]. split; [by left | right; by eexists].
  - destruct rest as [|y rest]; [destruct Hin|].
    destruct (IH Hin) as (before & after & Heq & Hb & Ha).
    exists (x +:+ nl +:+ before), after. rewrite join_cons, Heq.
    split; [by rewrite !append_assoc|]. split; [|exact Ha]. right.
    destruct Hb as [-> | [b ->]].
    + exists x. by rewrite append_nil_r.
    + exists (x +:+ nl +:+ b). by rewrite !append_assoc.
Qed.

(** ** Python values *)

Lemma py_join_items_str (i : nat) (items : list string) :
  py_join_items i (JStr <$> items) = Ok items.
Proof.
  revert i. induction items as [|s items IH]; intros i; [reflexivity|].
  cbn [fmap list_fmap py_join_items]. fold (fmap (M:=list) JStr items).
  rewrite IH. reflexivity.
Qed.

Lemma py_join_str (sep : string) (items : list string) :
  py_join sep (JStr <$> items) = Ok (join sep items).
Proof. unfold py_join. by rewrite py_join_items_str. Qed.

Lemma dict_get_some (d : gmap string json) key default v :
  d !! key = Some v → dict_get d key default = v.
Proof. unfold dict_get. by intros ->. Qed.

Lemma dict_get_none (d : gmap string json) key default :
  d !! key = None → dict_get d key default = default.
Proof. unfold dict_get. by intros ->. Qed.

Lemma truthy_str (s : string) : truthy (JStr s) = true ↔ s ≠ "".
Proof.
  cbn [truthy]. rewrite negb_true_iff. apply String.eqb_neq.
Qed.

(** ** Lower case *)

Lemma lower_byte_idem (c : ascii) : lower_byte (lower_byte c) = lower_byte c.
Proof. by destruct c as [[] [] [] [] [] [] [] []]. Qed.

(** Folding a byte neither creates nor removes a byte above ASCII. *)
Lemma lower_byte_high (c : ascii) (n : N) :
  (128 <= n)%N → (byte (lower_byte c) =? n)%N = (byte c =? n)%N.
Proof.
  intros Hn. unfold lower_byte.
  destruct ((65 <=? byte c)%N && (byte c <=? 90)%N) eqn:Hupper; [|reflexivity].
  apply andb_prop in Hupper as [H1%N.leb_le H2%N.leb_le].
  unfold byte at 1. rewrite N_ascii_embedding by lia.
  rewrite (proj2 (N.eqb_neq _ _)) by lia.
  symmetry. apply N.eqb_neq. lia.
Qed.

Lemma byte_eqb_true (c : ascii) (n : N) :
  (byte c =? n)%N = true → c = ascii_of_N n.
Proof.
  intros <-%N.eqb_eq. unfold byte. by rewrite ascii_N_embedding.
Qed.

Lemma lower_plain (c : ascii) (r : string) :
  (byte c =? 196)%N = false → (byte c =? 226)%N = false →
  lower (String c r) = String (lower_byte c) (lower r).
Proof.
  intros H1 H2. destruct r as [|c2 [|c3 r3]]; cbn [lower];
    rewrite ?H1, ?H2; reflexivity.
Qed.

Lemma lower_196 (r : string) :
  lower (String (ascii_of_N 196) r)
  = match r with
    | String c2 r2 =>
        if (byte c2 =? 176)%N
        then String "i" (String (ascii_of_N 204) (String (ascii_of_N 135) (lower r2)))
        else String (ascii_of_N 196) (lower r)
    | "" => String (ascii_of_N 196) ""
    end.
Proof. by destruct r as [|c2 [|c3 r3]]. Qed.

Lemma lower_226 (r : string) :
  lower (String (ascii_of_N 226) r)
  = match r with
    | String c2 (String c3 r3) =>
        if (byte c2 =? 132)%N && (byte c3 =? 170)%N
        then String "k" (lower r3)
        else String (ascii_of_N 226) (lower r)
    | _ => String (ascii_of_N 226) (lower r)
    end.
Proof. by destruct r as [|c2 [|c3 r3]]. Qed.

(** A byte above ASCII at the head of the lowered string was at the head
    of the string. *)
Lemma lower_head (n : N) (s : string) :
  (128 <= n)%N →
  starts_with_byte n (lower s) = true → starts_with_byte n s = true.
Proof.
  intros Hn. destruct s as [|c1 r1]; [done|].
  destruct (byte c1 =? 196)%N eqn:H196.
  { apply byte_eqb_true in H196 as ->. rewrite lower_196.
    destruct r1 as [|c2 r2]; [done|].
    destruct (byte c2 =? 176)%N; [|done].
    cbn. intros ?%N.eqb_eq. lia. }
  destruct (byte c1 =? 226)%N eqn:H226.
  { apply byte_eqb_true in H226 as ->. rewrite lower_226.
    destruct r1 as [|c2 [|c3 r3]]; [done..|].
    destruct (_ && _); [|done].
    cbn. intros ?%N.eqb_eq. lia. }
  rewrite lower_plain by done. cbn [starts_with_byte].
  by rewrite lower_byte_high.
Qed.

Lemma lower_head_false (n : N) (s : string) :
  (128 <= n)%N →
  starts_with_byte n s = false → starts_with_byte n (lower s) = false.
Proof.
  intros Hn Hs. apply not_true_is_false. intros H%lower_head; congruence.
Qed.

Lemma lower_idem_bounded (k : nat) (s : string) :
  (String.length s ≤ k)%nat → lower (lower s) = lower s.
Proof.
  revert s. induction k as [|k IH]; intros s Hlen.
  { destruct s; [reflexivity | cbn in Hlen; lia]. }
  destruct s as [|c1 r1]; [reflexivity|]. cbn [String.length] in Hlen.
  assert (lower (lower r1) = lower r1) as IH1 by (apply IH; lia).
  destruct (byte c1 =? 196)%N eqn:H196.
  { apply byte_eqb_true in H196 as ->. rewrite lower_196.
    destruct r1 as [|c2 r2]; [reflexivity|].
    destruct (byte c2 =? 176)%N eqn:H176.
    - cbn [String.length] in Hlen.
      rewrite !lower_plain by reflexivity.
      rewrite IH by lia. reflexivity.
    - rewrite lower_196.
      pose proof (lower_head_false 176 (String c2 r2) ltac:(lia) H176) as Hhead.
      destruct (lower (String c2 r2)) as [|c2' r2'] eqn:Hlow; [reflexivity|].
      cbn [starts_with_byte] in Hhead. rewrite Hhead.
      by rewrite IH1. }
  destruct (byte c1 =? 226)%N eqn:H226.
  { apply byte_eqb_true in H226 as ->. rewrite lower_226.
    destruct r1 as [|c2 [|c3 r3]].
    - reflexivity.
    - rewrite lower_226, IH1.
      destruct (lower (String c2 "")) as [|? [|? ?]] eqn:Hlow; try reflexivity.
      destruct (byte c2 =? 196)%N eqn:Hc2.
      + apply byte_eqb_true in Hc2 as ->. discriminate Hlow.
      + destruct (byte c2 =? 226)%N eqn:Hc2'.
        * apply byte_eqb_true in Hc2' as ->. discriminate Hlow.
        * rewrite lower_plain in Hlow by done. discriminate Hlow.
    - destruct ((byte c2 =? 132)%N && (byte c3 =? 170)%N) eqn:Hk.
      + cbn [String.length] in Hlen.
        rewrite lower_plain by reflexivity. rewrite IH by lia. reflexivity.
      + rewrite lower_226, IH1.
        destruct (lower (String c2 (String c3 r3))) as [|c2' [|c3' r3']] eqn:Hlow;
          try reflexivity.
        destruct ((byte c2' =? 132)%N && (byte c3' =? 170)%N) eqn:Hk';
          [|reflexivity].
        exfalso. apply andb_prop in Hk' as [Hc2' Hc3'].
        assert (starts_with_byte 132 (String c2 (String c3 r3)) = true) as Hc2.
        { apply lower_head; [lia|]. by rewrite Hlow. }
        cbn [starts_with_byte] in Hc2. rewrite Hc2 in Hk. cbn [andb] in Hk.
        apply byte_eqb_true in Hc2 as ->.
        rewrite lower_plain in Hlow by reflexivity. injection Hlow as _ Hlow.
        assert (starts_with_byte 170 (String c3 r3) = true) as Hc3.
        { apply lower_head; [lia|].
          replace (lower (String c3 r3)) with (String c3' r3')
            by (symmetry; exact Hlow).
          exact Hc3'. }
        cbn [starts_with_byte] in Hc3. congruence. }
  rewrite lower_plain by done.
  rewrite lower_plain by (by rewrite lower_byte_high by lia).
  by rewrite lower_byte_idem, IH1.
Qed.

(** Lowering twice is lowering once. *)
Lemma lower_idem (s : string) : lower (lower s) = lower s.
Proof. by apply (lower_idem_bounded (String.length s)). Qed.

(** Lowering a text that starts with a byte of ASCII. *)
Lemma lower_ascii_cons (c : ascii) (r : string) :
  (byte c <? 128)%N = true →
  lower (String c r) = String (lower_byte c) (lower r).
Proof.
  intros Hc%N.ltb_lt. apply lower_plain; apply N.eqb_neq; lia.
Qed.

(** ** The classifier *)

Section Classifier.
Context `{py : Python} `{nf : Notifications}.

(** On a [str], the classifier is the first-match search through the five
    keyword rules. *)
Lemma analyze_is_first_match (message : string) (hook_event_name : json) :
  analyze_message_content (JStr message) hook_event_name
  = Ok (classify_by_rules message).
Proof.
  unfold analyze_message_content, classify_by_rules, py_lower.
  cbn [mbind result_bind mret result_ret].
  generalize (lower message) as text. intros text.
  unfold keyword_rules. cbn [first_match existsb].
  rewrite !orb_false_r.
  repeat match goal with
         | |- context [contains ?k text] =>
             destruct (contains k text); cbn [orb]; try reflexivity
         end.
Qed.

Lemma first_match_in (text : string) rules :
  In (first_match text rules) (map snd rules ++ [fallback_rule]).
Proof.
  induction rules as [|[keywords verdict] rest IH]; cbn [first_match map app].
  - by left.
  - destruct (existsb _ keywords); [by left | by right].
Qed.

(** C10: for every message string and event name the classifier returns
    three tags, the last of which is the project tag, and a title that
    starts with "<ProjectTitle>: " and goes on with one of the six
    suffixes. *)
Theorem analyze_tags_and_title (message : string) (hook_event_name : json) :
  ∃ priority title tags suffix,
    analyze_message_content (JStr message) hook_event_name
      = Ok (priority, title, tags)
    ∧ length tags = 3
    ∧ last tags = Some PROJECT_TAG
    ∧ title = (PROJECT_TITLE +:+ ": ") +:+ suffix
    ∧ String.prefix (PROJECT_TITLE +:+ ": ") title = true
    ∧ In suffix ["Permission Required"; "Error Detected"; "Waiting for Input";
                 "Hook Alert"; "Task Completed"; "Notification"].
Proof.
  rewrite analyze_is_first_match. unfold classify_by_rules.
  pose proof (first_match_in (lower message) keyword_rules) as Hin.
  destruct (first_match (lower message) keyword_rules)
    as [[priority suffix] icons].
  exists priority, (PROJECT_TITLE +:+ ": " +:+ suffix), (icons ++ [PROJECT_TAG]), suffix.
  assert (String.prefix (PROJECT_TITLE +:+ ": ")
            (PROJECT_TITLE +:+ ": " +:+ suffix) = true) as Hpre.
  { apply prefix_append. exists suffix. by rewrite append_assoc. }
  rewrite <- append_assoc in Hpre |- *.
  cbn in Hin.
  destruct Hin as [Hin|[Hin|[Hin|[Hin|[Hin|[Hin|[]]]]]]];
    injection Hin as <- <- <-; cbn [length last app]; intuition (cbn; auto 10).
Qed.

(** X12: the classifier looks at the message in lower case only, and not
    at the event name: lowering the message beforehand, or changing the
    event name, changes nothing in its result. *)
Theorem classification_ignores_case (message : string)
    (hook_event_name other_name : json) :
  analyze_message_content (JStr (lower message)) other_name
  = analyze_message_content (JStr message) hook_event_name.
Proof.
  rewrite !analyze_is_first_match. unfold classify_by_rules.
  by rewrite lower_idem.
Qed.

End Classifier.

(** ** The two builders *)

Section Builders.
Context `{py : Python} `{nf : Notifications}.

(** C5: the idle-timeout builder returns the title "<ProjectTitle>: Session
    Idle", the message "Claude session idle for <d>s" and the priority
    "default", where d is the field [idle_duration_seconds] as [str] prints
    it: 60 when the field is absent, the decimal digits when it is an
    integer, 45 in the example of the specification. *)
Theorem idle_timeout_presentation (d : gmap string json) :
  build_idle_timeout_notification (JObj d)
    = Ok (PROJECT_TITLE +:+ ": Session Idle",
          "Claude session idle for " +:+
            py_str (dict_get d "idle_duration_seconds" (JInt 60)) +:+ "s",
          "default", ["clock"; PROJECT_TAG])
  ∧ build_idle_timeout_notification (JObj (delete "idle_duration_seconds" d))
    = Ok (PROJECT_TITLE +:+ ": Session Idle", "Claude session idle for 60s",
          "default", ["clock"; PROJECT_TAG])
  ∧ (∀ n : Z,
       build_idle_timeout_notification
         (JObj (<["idle_duration_seconds" := JInt n]> d))
       = Ok (PROJECT_TITLE +:+ ": Session Idle",
             "Claude session idle for " +:+ str_of_int n +:+ "s",
             "default", ["clock"; PROJECT_TAG]))
  ∧ build_idle_timeout_notification
      (JObj (<["idle_duration_seconds" := JInt 45]> d))
    = Ok (PROJECT_TITLE +:+ ": Session Idle", "Claude session idle for 45s",
          "default", ["clock"; PROJECT_TAG]).
Proof.
  unfold build_idle_timeout_notification.
  cbn [py_get mbind result_bind mret result_ret].
  repeat split.
  - by rewrite dict_get_none by apply lookup_delete_eq.
  - intros n. by rewrite (dict_get_some _ _ _ (JInt n)) by apply lookup_insert_eq.
  - by rewrite (dict_get_some _ _ _ (JInt 45)) by apply lookup_insert_eq.
Qed.

(** The lines of the message for an exec approval and for a patch approval
    with more than three changed files. *)
Lemma tool_permission_lines_exec (d : gmap string json) (command : json) :
  d !! "approval_type" = Some (JStr "exec") →
  dict_get d "command" JNull = command →
  tool_permission_lines (JObj d)
  = Ok (["Claude needs permission to use " +:+
           py_str (dict_get d "tool_name" (JStr "unknown"))]
        ++ (if truthy command then ["Command: " +:+ py_str command] else [])
        ++ (if truthy (dict_get d "reason" JNull)
            then ["Reason: " +:+ py_str (dict_get d "reason" JNull)] else [])).
Proof.
  intros Hexec <-. unfold tool_permission_lines.
  cbn [py_get mbind result_bind mret result_ret].
  rewrite (dict_get_some _ _ _ _ Hexec).
  change (py_eq (JStr "exec") "exec") with true. cbv iota.
  destruct (truthy (dict_get d "command" JNull));
    cbn [mbind result_bind mret result_ret];
    by destruct (truthy (dict_get d "reason" JNull)).
Qed.

Lemma tool_permission_lines_patch (d : gmap string json) (cs : list string) :
  d !! "approval_type" = Some (JStr "patch") →
  d !! "changes" = Some (JArr (JStr <$> cs)) →
  3 < length cs →
  tool_permission_lines (JObj d)
  = Ok (["Claude needs permission to use " +:+
           py_str (dict_get d "tool_name" (JStr "unknown"));
         "Files: " +:+ join ", " (take 3 cs);
         "(+" +:+ str_of_int (Z.of_nat (length cs) - 3) +:+ " more)"]
        ++ (if truthy (dict_get d "reason" JNull)
            then ["Reason: " +:+ py_str (dict_get d "reason" JNull)] else [])).
Proof.
  intros Hpatch Hchanges Hlen. unfold tool_permission_lines.
  cbn [py_get mbind result_bind mret result_ret].
  rewrite (dict_get_some _ _ _ _ Hpatch), (dict_get_some _ _ _ _ Hchanges).
  change (py_eq (JStr "patch") "exec") with false.
  change (py_eq (JStr "patch") "patch") with true. cbv iota.
  assert (truthy (JArr (JStr <$> cs)) = true) as Htruthy.
  { destruct cs; [cbn in Hlen; lia | reflexivity]. }
  unfold py_or. rewrite Htruthy.
  cbn [py_slice py_len mbind result_bind mret result_ret].
  rewrite <- fmap_take, py_join_str. cbn [mbind result_bind mret result_ret].
  rewrite length_fmap.
  assert ((0 <? Z.of_nat (length cs) - 3)%Z = true) as ->
    by (apply Z.ltb_lt; lia).
  rewrite Htruthy. cbn [mbind result_bind mret result_ret].
  by destruct (truthy (dict_get d "reason" JNull)).
Qed.

(** C2: for a patch approval whose [changes] holds more than three
    entries, the lines of the message are the header, a line "Files: "
    followed by the first three entries joined by ", ", the line
    "(+<N-3> more)", and the reason line if there is a reason; the message
    is these lines joined by newlines, so both lines are lines of it. *)
Theorem patch_preview_lines (d : gmap string json) (cs : list string) :
  d !! "approval_type" = Some (JStr "patch") →
  d !! "changes" = Some (JArr (JStr <$> cs)) →
  3 < length cs →
  ∃ lines,
    tool_permission_lines (JObj d) = Ok lines
    ∧ build_tool_permission_notification (JObj d)
      = Ok (PROJECT_TITLE +:+ ": Permission Required", join nl lines, "high",
            ["warning"; "key"; PROJECT_TAG])
    ∧ lines !! 1 = Some ("Files: " +:+ join ", " (take 3 cs))
    ∧ lines !! 2
      = Some ("(+" +:+ str_of_int (Z.of_nat (length cs) - 3) +:+ " more)")
    ∧ is_line_of ("Files: " +:+ join ", " (take 3 cs)) (join nl lines)
    ∧ is_line_of ("(+" +:+ str_of_int (Z.of_nat (length cs) - 3) +:+ " more)")
        (join nl lines).
Proof.
  intros Hpatch Hchanges Hlen.
  pose proof (tool_permission_lines_patch d cs Hpatch Hchanges Hlen) as Hlines.
  eexists. split; [exact Hlines|].
  unfold build_tool_permission_notification. rewrite Hlines.
  cbn [mbind result_bind mret result_ret].
  repeat split; apply join_nl_is_line; cbn; auto.
Qed.

(** C3, as the code has it: for an exec approval whose [command] field is
    true as a Python value (for a string: not empty), the lines of the
    message are the header, the line "Command: <command>", and the reason
    line if there is a reason. *)
Theorem exec_command_line (d : gmap string json) (command : json) :
  d !! "approval_type" = Some (JStr "exec") →
  d !! "command" = Some command →
  truthy command = true →
  ∃ lines,
    tool_permission_lines (JObj d) = Ok lines
    ∧ build_tool_permission_notification (JObj d)
      = Ok (PROJECT_TITLE +:+ ": Permission Required", join nl lines, "high",
            ["warning"; "key"; PROJECT_TAG])
    ∧ lines !! 1 = Some ("Command: " +:+ py_str command)
    ∧ is_line_of ("Command: " +:+ py_str command) (join nl lines).
Proof.
  intros Hexec Hcommand Htruthy.
  pose proof (tool_permission_lines_exec d command Hexec
                (dict_get_some _ _ _ _ Hcommand)) as Hlines.
  rewrite Htruthy in Hlines.
  eexists. split; [exact Hlines|].
  unfold build_tool_permission_notification. rewrite Hlines.
  cbn [mbind result_bind mret result_ret].
  repeat split; apply join_nl_is_line; cbn; auto.
Qed.

(** *** Further properties of the permission builder *)

Lemma build_tool_permission_of_lines (d : gmap string json) :
  build_tool_permission_notification (JObj d)
  = (lines ← tool_permission_lines (JObj d);
     mret (PROJECT_TITLE +:+ ": Permission Required", join nl lines, "high",
           ["warning"; "key"; PROJECT_TAG])).
Proof. reflexivity. Qed.

(** Splits [tool_permission_lines] into the branch on the approval type
    and the reason line. *)
Lemma tool_permission_lines_unfold (d : gmap string json) :
  tool_permission_lines (JObj d)
  = (middle ←
       (let approval_type := dict_get d "approval_type" (JStr "unknown") in
        if py_eq approval_type "exec" then
          if truthy (dict_get d "command" JNull)
          then Ok ["Command: " +:+ py_str (dict_get d "command" JNull)]
          else Ok []
        else if py_eq approval_type "patch" then
          let changes := py_or (dict_get d "changes" JNull) (JArr []) in
          if truthy changes then
            first ← py_slice changes 3;
            preview ← py_join ", " first;
            n ← py_len changes;
            if (0 <? n - 3)%Z
            then Ok ["Files: " +:+ preview;
                     "(+" +:+ str_of_int (n - 3) +:+ " more)"]
            else Ok ["Files: " +:+ preview]
          else Ok []
        else Ok []);
     mret (permission_header d :: middle ++ reason_lines d)).
Proof.
  unfold tool_permission_lines, permission_header, reason_lines.
  cbn [py_get mbind result_bind mret result_ret]. cbv zeta.
  destruct (py_eq _ "exec").
  - destruct (truthy (dict_get d "command" JNull));
      cbn [mbind result_bind mret result_ret app];
      by destruct (truthy (dict_get d "reason" JNull)).
  - destruct (py_eq _ "patch");
      [|cbn [mbind result_bind mret result_ret app];
        by destruct (truthy (dict_get d "reason" JNull))].
    destruct (truthy (py_or _ _));
      [|cbn [mbind result_bind mret result_ret app];
        by destruct (truthy (dict_get d "reason" JNull))].
    destruct (py_slice _ 3) as [first|e]; [|reflexivity].
    cbn [mbind result_bind mret result_ret].
    destruct (py_join ", " first) as [preview|e]; [|reflexivity].
    cbn [mbind result_bind mret result_ret].
    destruct (py_len _) as [n|e]; [|reflexivity].
    cbn [mbind result_bind mret result_ret].
    destruct (0 <? n - 3)%Z;
      cbn [mbind result_bind mret result_ret app];
      by destruct (truthy (dict_get d "reason" JNull)).
Qed.

Lemma py_eq_true (v : json) (literal : string) :
  py_eq v literal = true → v = JStr literal.
Proof.
  destruct v; try discriminate. cbn [py_eq]. by intros ->%String.eqb_eq.
Qed.

Lemma tool_permission_lines_shape (d : gmap string json) (lines : list string) :
  tool_permission_lines (JObj d) = Ok lines →
  ∃ middle, lines = permission_header d :: middle ++ reason_lines d
            ∧ (length middle ≤ 2)%nat.
Proof.
  intros Hlines.
  rewrite tool_permission_lines_unfold in Hlines. cbv zeta in Hlines.
  repeat match type of Hlines with
         | context [if ?b then _ else _] => destruct b
         | context [py_slice ?c ?n] => destruct (py_slice c n)
         | context [py_join ?s ?l] => destruct (py_join s l)
         | context [py_len ?c] => destruct (py_len c)
         | _ => progress cbn [mbind result_bind mret result_ret] in Hlines
         end;
    try discriminate Hlines; injection Hlines as <-;
    first [ exists []; split; [reflexivity | cbn [length]; lia]
          | eexists [_]; split; [reflexivity | cbn [length]; lia]
          | eexists [_; _]; split; [reflexivity | cbn [length]; lia] ].
Qed.

Lemma py_join_items_exception (i : nat) (items : list json) (e : exn) :
  py_join_items i items = Raise e → is_exception e = true.
Proof.
  revert i. induction items as [|v items IH]; intros i; [discriminate|].
  destruct v; try (by intros [= <-]).
  cbn [py_join_items]. destruct (py_join_items (S i) items) eqn:Hrest;
    [discriminate|]. intros [= <-]. eauto.
Qed.

(** What the permission builder raises is an [Exception]. *)
Lemma tool_permission_lines_exception (d : gmap string json) (e : exn) :
  tool_permission_lines (JObj d) = Raise e → is_exception e = true.
Proof.
  rewrite tool_permission_lines_unfold. cbv zeta. intros Hraise.
  repeat match type of Hraise with
         | context [if ?b then _ else _] => destruct b
         | _ => progress cbn [mbind result_bind mret result_ret] in Hraise
         end; try discriminate Hraise.
  destruct (py_slice _ 3) as [first|e1] eqn:Hslice.
  - cbn [mbind result_bind mret result_ret] in Hraise.
    unfold py_join in Hraise.
    destruct (py_join_items 0 first) as [ss|e2] eqn:Hjoin.
    + cbn [mbind result_bind mret result_ret] in Hraise.
      destruct (py_or _ _); try discriminate Hslice;
        cbn [py_len mbind result_bind mret result_ret] in Hraise;
        by destruct (0 <? _)%Z.
    + cbn [mbind result_bind mret result_ret] in Hraise.
      injection Hraise as <-. by apply py_join_items_exception in Hjoin.
  - cbn [mbind result_bind mret result_ret] in Hraise. injection Hraise as <-.
    destruct (py_or _ _); cbn [py_slice] in Hslice;
      first [discriminate Hslice | by injection Hslice as <-].
Qed.

(** X1: whenever the permission builder returns, the message starts with
    the header naming the tool, goes on with at most two lines for the
    command or the changed files, and ends with the reason line when there
    is a reason; title, priority and tags are fixed. *)
Theorem permission_message_shape (d : gmap string json) (lines : list string) :
  tool_permission_lines (JObj d) = Ok lines →
  (∃ middle, lines = permission_header d :: middle ++ reason_lines d
             ∧ (length middle ≤ 2)%nat)
  ∧ lines !! 0 = Some (permission_header d)
  ∧ (truthy (dict_get d "reason" JNull) = true →
     last lines = Some ("Reason: " +:+ py_str (dict_get d "reason" JNull)))
  ∧ build_tool_permission_notification (JObj d)
    = Ok (PROJECT_TITLE +:+ ": Permission Required", join nl lines, "high",
          ["warning"; "key"; PROJECT_TAG]).
Proof.
  intros Hlines.
  destruct (tool_permission_lines_shape d lines Hlines) as (middle & Heq & Hlen).
  split; [by exists middle|]. subst lines. split; [reflexivity|]. split.
  - intros Hreason. unfold reason_lines. rewrite Hreason.
    change (permission_header d :: middle ++ [?x])
      with ((permission_header d :: middle) ++ [x]).
    apply last_snoc.
  - by rewrite build_tool_permission_of_lines, Hlines.
Qed.

(** X2: a patch approval with one to three changed files lists all of
    them and has no "(+N more)" line. *)
Theorem patch_lists_up_to_three (d : gmap string json) (cs : list string) :
  d !! "approval_type" = Some (JStr "patch") →
  d !! "changes" = Some (JArr (JStr <$> cs)) →
  cs ≠ [] →
  (length cs ≤ 3)%nat →
  tool_permission_lines (JObj d)
  = Ok (permission_header d :: ("Files: " +:+ join ", " cs) :: reason_lines d).
Proof.
  intros Hpatch Hchanges Hne Hlen. rewrite tool_permission_lines_unfold.
  rewrite (dict_get_some _ _ _ _ Hpatch), (dict_get_some _ _ _ _ Hchanges).
  change (py_eq (JStr "patch") "exec") with false.
  change (py_eq (JStr "patch") "patch") with true. cbv zeta iota.
  assert (truthy (JArr (JStr <$> cs)) = true) as Htruthy
    by (by destruct cs).
  unfold py_or. rewrite !Htruthy.
  cbn [py_slice py_len mbind result_bind mret result_ret].
  rewrite <- fmap_take, py_join_str, length_fmap, firstn_all2 by lia.
  cbn [mbind result_bind mret result_ret].
  assert ((0 <? Z.of_nat (length cs) - 3)%Z = false) as ->
    by (apply Z.ltb_ge; lia).
  reflexivity.
Qed.

(** X3: the message is the header and the reason alone when the approval
    type is neither "exec" nor "patch", when it is "exec" and the command
    is absent or empty, and when it is "patch" and the changes are absent
    or empty. *)
Theorem permission_header_only (d : gmap string json) :
  (py_eq (dict_get d "approval_type" (JStr "unknown")) "exec" = false
   ∧ py_eq (dict_get d "approval_type" (JStr "unknown")) "patch" = false)
  ∨ (py_eq (dict_get d "approval_type" (JStr "unknown")) "exec" = true
     ∧ truthy (dict_get d "command" JNull) = false)
  ∨ (py_eq (dict_get d "approval_type" (JStr "unknown")) "patch" = true
     ∧ truthy (dict_get d "changes" JNull) = false) →
  tool_permission_lines (JObj d) = Ok (permission_header d :: reason_lines d).
Proof.
  intros Hcase.
  rewrite tool_permission_lines_unfold. cbv zeta.
  destruct Hcase as [[-> ->] | [[-> ->] | [Hpatch Hchanges]]];
    [reflexivity | reflexivity |].
  apply py_eq_true in Hpatch. rewrite Hpatch.
  change (py_eq (JStr "patch") "exec") with false.
  change (py_eq (JStr "patch") "patch") with true. cbv iota.
  unfold py_or. by rewrite Hchanges.
Qed.

(** X4: in a patch approval only the first three entries of [changes] are
    joined, so only they have to be strings; whatever follows is counted
    and nothing else. *)
Theorem patch_counts_the_rest (d : gmap string json) (c1 c2 c3 : string)
    (rest : list json) :
  d !! "approval_type" = Some (JStr "patch") →
  d !! "changes" = Some (JArr (JStr c1 :: JStr c2 :: JStr c3 :: rest)) →
  tool_permission_lines (JObj d)
  = Ok (permission_header d
        :: ("Files: " +:+ c1 +:+ ", " +:+ c2 +:+ ", " +:+ c3)
        :: (match rest with
            | [] => []
            | _ => ["(+" +:+ str_of_int (Z.of_nat (length rest)) +:+ " more)"]
            end)
        ++ reason_lines d).
Proof.
  intros Hpatch Hchanges. rewrite tool_permission_lines_unfold.
  rewrite (dict_get_some _ _ _ _ Hpatch), (dict_get_some _ _ _ _ Hchanges).
  change (py_eq (JStr "patch") "exec") with false.
  change (py_eq (JStr "patch") "patch") with true. cbv zeta iota.
  unfold py_or. cbn [truthy py_slice take py_len length].
  change (py_join ", " [JStr c1; JStr c2; JStr c3])
    with (Ok (c1 +:+ ", " +:+ c2 +:+ ", " +:+ c3)).
  cbn [mbind result_bind mret result_ret].
  replace (Z.of_nat (S (S (S (length rest)))) - 3)%Z
    with (Z.of_nat (length rest)) by lia.
  destruct rest as [|r rest]; [reflexivity|].
  assert ((0 <? Z.of_nat (length (r :: rest)))%Z = true) as ->
    by (apply Z.ltb_lt; cbn [length]; lia).
  reflexivity.
Qed.

Lemma py_join_items_fails (i : nat) (items : list json) :
  forallb is_str items = false →
  ∃ text, py_join_items i items = Raise (Exn "TypeError" text).
Proof.
  revert i. induction items as [|v items IH]; intros i Hbad; [discriminate|].
  destruct v; try (eexists; reflexivity).
  cbn [forallb is_str andb] in Hbad. destruct (IH (S i) Hbad) as [text Htext].
  exists text. cbn [py_join_items]. by rewrite Htext.
Qed.

(** X5: a patch approval whose [changes] is a list with an entry among
    the first three that is not a string makes the builder raise a
    [TypeError]: no message is built. *)
Theorem patch_rejects_non_string_entries (d : gmap string json)
    (changes : list json) :
  d !! "approval_type" = Some (JStr "patch") →
  d !! "changes" = Some (JArr changes) →
  forallb is_str (take 3 changes) = false →
  ∃ text,
    build_tool_permission_notification (JObj d) = Raise (Exn "TypeError" text).
Proof.
  intros Hpatch Hchanges Hbad.
  destruct (py_join_items_fails 0 _ Hbad) as [text Htext]. exists text.
  rewrite build_tool_permission_of_lines, tool_permission_lines_unfold.
  rewrite (dict_get_some _ _ _ _ Hpatch), (dict_get_some _ _ _ _ Hchanges).
  change (py_eq (JStr "patch") "exec") with false.
  change (py_eq (JStr "patch") "patch") with true. cbv zeta iota.
  assert (truthy (JArr changes) = true) as Htruthy
    by (by destruct changes).
  unfold py_or. rewrite !Htruthy.
  cbn [py_slice mbind result_bind mret result_ret].
  unfold py_join. by rewrite Htext.
Qed.

Lemma join_head (sep x : string) (rest : list string) :
  ∃ tail, join sep (x :: rest) = x +:+ tail.
Proof.
  destruct rest as [|y rest].
  - exists "". cbn. by rewrite append_nil_r.
  - eexists. by rewrite join_cons.
Qed.

(** X13: the permission builder and the classifier agree: the message of
    a permission request contains "permission", so that the classifier,
    given the built message, returns the priority, title and tags that the
    builder chose. *)
Theorem permission_builder_agrees_with_classifier (d : gmap string json)
    (title message priority : string) (tags : list string)
    (hook_event_name : json) :
  build_tool_permission_notification (JObj d)
    = Ok (title, message, priority, tags) →
  analyze_message_content (JStr message) hook_event_name
    = Ok (priority, title, tags).
Proof.
  rewrite build_tool_permission_of_lines.
  destruct (tool_permission_lines (JObj d)) as [lines|e] eqn:Hlines;
    [|discriminate].
  cbn [mbind result_bind mret result_ret]. intros [= <- <- <- <-].
  destruct (tool_permission_lines_shape d lines Hlines) as (middle & -> & _).
  destruct (join_head nl (permission_header d) (middle ++ reason_lines d))
    as [tail ->].
  assert (contains "permission" (lower (permission_header d +:+ tail)) = true)
    as Hin.
  { apply contains_spec. unfold permission_header.
    rewrite append_assoc, !append_cons, append_nil_l.
    rewrite !lower_ascii_cons by reflexivity.
    by exists "claude needs ", (" to use " +:+
      lower (py_str (dict_get d "tool_name" (JStr "unknown")) +:+ tail)). }
  unfold analyze_message_content, py_lower.
  cbn [mbind result_bind mret result_ret]. by rewrite Hin.
Qed.

End Builders.

(** ** The enrichment step *)

Section Enrichment.
Context `{py : Python} `{nf : Notifications}.

Lemma format_decompose body name pi :
  format_notification_message body name pi
  = py_str body +:+ event_suffix name +:+ status_suffix pi.
Proof.
  unfold format_notification_message, event_suffix, status_suffix.
  by destruct (String.eqb (git_status pi) "clean").
Qed.

Lemma status_suffix_dirty pi :
  git_status pi ≠ "clean" → status_suffix pi = " • " +:+ git_status pi.
Proof.
  intros Hne. unfold status_suffix.
  by rewrite (proj2 (String.eqb_neq _ _) Hne).
Qed.

Lemma status_suffix_clean pi : git_status pi = "clean" → status_suffix pi = "".
Proof. intros Heq. unfold status_suffix. by rewrite Heq. Qed.

(** X11: the enrichment step only appends: the message is a prefix of the
    formatted message; an event name that is empty (or null, or zero) adds
    no parentheses; and with such a name and a clean tree the formatted
    message is the message itself. *)
Theorem enrichment_only_appends body name pi :
  String.prefix (py_str body) (format_notification_message body name pi) = true
  ∧ (truthy name = false →
     format_notification_message body name pi
     = py_str body +:+ status_suffix pi)
  ∧ (truthy name = false → git_status pi = "clean" →
     format_notification_message body name pi = py_str body).
Proof.
  rewrite format_decompose. split; [|split].
  - apply prefix_append. by eexists.
  - intros Hname. unfold event_suffix. by rewrite Hname.
  - intros Hname Hclean. unfold event_suffix.
    by rewrite Hname, (status_suffix_clean _ Hclean), append_nil_r.
Qed.

End Enrichment.

Lemma append_last_byte (a b : string) (c c' : ascii) :
  a +:+ String c "" = b +:+ String c' "" → c = c'.
Proof.
  revert b. induction a as [|x a IH]; intros [|y b] Heq;
    rewrite ?append_cons, ?append_nil_l in Heq.
  - by injection Heq.
  - injection Heq as _ Heq. by destruct b.
  - injection Heq as _ Heq. by destruct a.
  - injection Heq as _ Heq. eauto.
Qed.

(** ** The driver *)

Section Driver.
Context `{py : Python} `{nf : Notifications}.

Lemma main_except_run (e : exn) :
  main_except e =
  ([CallLog ("✗ Hook error: " +:+ exn_str e) HOOK_NAME;
    CallLog ("✗ Exception type: " +:+ exn_class e) HOOK_NAME;
    CallLog ("✗ Exception details: " +:+ exn_str e) HOOK_NAME;
    CallLog "✗ Full traceback:" HOOK_NAME;
    CallLog (format_exc e) HOOK_NAME], Ok tt).
Proof. reflexivity. Qed.

(** Unfolds the driver down to the results of the collaborators. *)
Ltac unfold_main :=
  unfold main, main_try, lift, get_project_context, send_notification,
    play_audio, log;
  cbn [ENABLE_NOTIFICATIONS negb mbind M_bind mret M_ret].

Ltac step_run :=
  cbn [py_get mbind M_bind mret M_ret try_except is_exception AttributeError];
  rewrite ?main_except_run;
  cbn [trace outcome fst snd app].

(** Splits a run of the driver along the steps that can raise. *)
Ltac split_run :=
  step_run;
  repeat (match goal with
    | |- context [json_loads ?s] =>
        let H := fresh "Hloads" in
        destruct (json_loads s) as [[| | | | | |]|] eqn:H
    | |- context [get_project_context_ret ?c ?h] =>
        let H := fresh "Hctx" in
        destruct (get_project_context_ret c h) eqn:H
    | |- context [build_presentation ?i ?t] =>
        let H := fresh "Hpres" in
        destruct (build_presentation i t) as [[[[[? ?] ?] ?] ?]|] eqn:H
    | |- context [match send_notification_ret ?m ?ti ?p ?tg ?pi ?sid ?h with _ => _ end] =>
        let H := fresh "Hsend" in
        destruct (send_notification_ret m ti p tg pi sid h) as [[|]|] eqn:H
    | |- context [play_audio_ret ?f ?h] =>
        let H := fresh "Hplay" in
        destruct (play_audio_ret f h) eqn:H
    | |- context [is_exception ?e] => is_var e; destruct e
    end; step_run).

(** A run in which reading the event, fetching the project context and
    building the presentation succeed: the calls up to the delivery. *)
Lemma main_delivery stdin d pi title body prio tags name :
  json_loads stdin = Ok (JObj d) →
  get_project_context_ret (dict_get d "cwd" (JStr "")) HOOK_NAME = Ok pi →
  build_presentation (JObj d) (dict_get d "type" (JStr ""))
    = Ok (title, body, prio, tags, name) →
  ∃ rest,
    trace (main stdin)
    = [CallLog ("Processing Notification hook for session " +:+
                py_str (dict_get d "session_id" (JStr "unknown"))) HOOK_NAME;
       CallLog ("Event: " +:+ py_str (dict_get d "type" (JStr ""))) HOOK_NAME;
       CallGetProjectContext (dict_get d "cwd" (JStr "")) HOOK_NAME;
       CallLog ("Message: " +:+ py_str body) HOOK_NAME;
       CallSendNotification (format_notification_message body name pi) title
         prio tags pi (dict_get d "session_id" (JStr "unknown")) HOOK_NAME]
      ++ rest
    ∧ notifications_sent rest = [].
Proof.
  intros Hloads Hctx Hpres. unfold_main.
  rewrite Hloads. step_run. rewrite Hctx, Hpres.
  split_run; eexists; (split; [reflexivity | reflexivity]).
Qed.

Lemma main_sends stdin d pi title body prio tags name :
  json_loads stdin = Ok (JObj d) →
  get_project_context_ret (dict_get d "cwd" (JStr "")) HOOK_NAME = Ok pi →
  build_presentation (JObj d) (dict_get d "type" (JStr ""))
    = Ok (title, body, prio, tags, name) →
  notifications_sent (trace (main stdin))
  = [(format_notification_message body name pi, title, prio, tags)].
Proof.
  intros Hloads Hctx Hpres.
  destruct (main_delivery _ _ _ _ _ _ _ _ Hloads Hctx Hpres) as (rest & -> & Hrest).
  cbn [notifications_sent flat_map app]. fold (notifications_sent rest).
  by rewrite Hrest.
Qed.

(** Whatever is handed to [send_notification] went through the
    enrichment step, with the project context of the same call. *)
Lemma main_sends_formatted stdin m ti p tg pi sid h :
  In (CallSendNotification m ti p tg pi sid h) (trace (main stdin)) →
  ∃ body name, m = format_notification_message body name pi.
Proof.
  unfold_main. split_run; cbn [In]; intros Hin;
    repeat match goal with
      | H : _ ∨ _ |- _ => destruct H
      | H : False |- _ => destruct H
      | H : CallSendNotification _ _ _ _ _ _ _ = _ |- _ =>
          injection H as <- <- <- <- <- <- <-
      | H : _ = CallSendNotification _ _ _ _ _ _ _ |- _ => discriminate H
      end; eauto.
Qed.

(** What the branch on the event type raises is an [Exception]. *)
Lemma build_presentation_exception (d : gmap string json) (hook_type : json)
    (e : exn) :
  build_presentation (JObj d) hook_type = Raise e → is_exception e = true.
Proof.
  unfold build_presentation.
  destruct (py_eq hook_type "tool-permission-request").
  - rewrite build_tool_permission_of_lines.
    destruct (tool_permission_lines (JObj d)) as [lines|e'] eqn:Hlines;
      [discriminate|].
    intros [= <-]. by apply tool_permission_lines_exception in Hlines.
  - destruct (py_eq hook_type "prompt-idle-timeout"); [discriminate|].
    cbn [py_get mbind result_bind mret result_ret].
    destruct (if negb (truthy (dict_get d "message" (JStr ""))) then _ else _);
      try (by intros [= <-]).
    rewrite analyze_is_first_match.
    by destruct (classify_by_rules s) as [[? ?] ?].
Qed.

(** C8, as the code has it: the handler of [main] is [except Exception].
    When a step of the [try] block raises an [Exception], the calls made
    so far are followed by the five log entries of the handler and the
    entry point returns normally; in particular, standard input that
    [json.loads] rejects yields these five entries and nothing else.  An
    exception that is not an [Exception] is not caught: it propagates to
    the caller and nothing is logged.  The hook's own code raises only
    [Exception]s, so the entry point returns normally whenever the
    collaborators raise nothing else. *)
Theorem main_suppresses_exceptions (stdin : string) :
  (∀ t e, main_try stdin = (t, Raise e) → is_exception e = true →
     main stdin = (t ++ trace (main_except e), Ok tt))
  ∧ (∀ e, json_loads stdin = Raise e → is_exception e = true →
       main stdin =
       ([CallLog ("✗ Hook error: " +:+ exn_str e) HOOK_NAME;
         CallLog ("✗ Exception type: " +:+ exn_class e) HOOK_NAME;
         CallLog ("✗ Exception details: " +:+ exn_str e) HOOK_NAME;
         CallLog "✗ Full traceback:" HOOK_NAME;
         CallLog (format_exc e) HOOK_NAME], Ok tt))
  ∧ (∀ t e, main_try stdin = (t, Raise e) → is_exception e = false →
       main stdin = (t, Raise e))
  ∧ ((∀ e, json_loads stdin = Raise e → is_exception e = true) →
     (∀ cwd h e,
        get_project_context_ret cwd h = Raise e → is_exception e = true) →
     (∀ m ti p tg pi sid h e,
        send_notification_ret m ti p tg pi sid h = Raise e →
        is_exception e = true) →
     (∀ f h e, play_audio_ret f h = Raise e → is_exception e = true) →
     outcome (main stdin) = Ok tt).
Proof.
  split; [|split; [|split]].
  - intros t e Htry He. unfold main, try_except. by rewrite Htry, He.
  - intros e Hloads He. unfold_main. rewrite Hloads.
    cbn [mbind M_bind try_except]. by rewrite He.
  - intros t e Htry He. unfold main, try_except. by rewrite Htry, He.
  - intros Hj Hc Hs Ha. unfold_main.
    split_run; try (by repeat match goal with a : unit |- _ => destruct a end);
      exfalso;
      match goal with
      | H : ∀ e, Raise _ = Raise e → _ |- _ => specialize (H _ eq_refl)
      | H : get_project_context_ret _ _ = Raise _ |- _ => apply Hc in H
      | H : build_presentation _ _ = Raise _ |- _ =>
          apply build_presentation_exception in H
      | H : send_notification_ret _ _ _ _ _ _ _ = Raise _ |- _ => apply Hs in H
      | H : play_audio_ret _ _ = Raise _ |- _ => apply Ha in H
      end; discriminate.
Qed.

(** C9: in every run, [play_audio] is called exactly when a call to
    [send_notification] reported success, then once and with "toasty.mp3";
    and no call to [play_audio] comes before such a report. *)
Theorem audio_iff_delivery_succeeded (stdin : string) :
  audio_played (trace (main stdin))
  = (if reported_success (trace (main stdin)) then ["toasty.mp3"] else [])
  ∧ audio_only_after_success false (trace (main stdin)) = true.
Proof.
  unfold_main.
  split_run;
    cbn [audio_played flat_map app reported_success existsb orb
         audio_only_after_success andb];
    rewrite ?Hsend; split; reflexivity.
Qed.

Lemma presentation_tool_permission d title body prio tags :
  d !! "type" = Some (JStr "tool-permission-request") →
  build_tool_permission_notification (JObj d) = Ok (title, body, prio, tags) →
  build_presentation (JObj d) (dict_get d "type" (JStr ""))
  = Ok (title, JStr body, prio, tags, JStr "tool-permission-request").
Proof.
  intros Htype Hbuild. rewrite (dict_get_some _ _ _ _ Htype).
  unfold build_presentation.
  change (py_eq (JStr "tool-permission-request") "tool-permission-request")
    with true.
  cbv iota. by rewrite Hbuild.
Qed.

Lemma presentation_idle_timeout d title body prio tags :
  d !! "type" = Some (JStr "prompt-idle-timeout") →
  build_idle_timeout_notification (JObj d) = Ok (title, body, prio, tags) →
  build_presentation (JObj d) (dict_get d "type" (JStr ""))
  = Ok (title, JStr body, prio, tags, JStr "prompt-idle-timeout").
Proof.
  intros Htype Hbuild. rewrite (dict_get_some _ _ _ _ Htype).
  unfold build_presentation.
  change (py_eq (JStr "prompt-idle-timeout") "tool-permission-request")
    with false.
  change (py_eq (JStr "prompt-idle-timeout") "prompt-idle-timeout") with true.
  cbv iota. by rewrite Hbuild.
Qed.

(** The event name that the generic path computes is the fallback chain. *)
Lemma event_name_is_chain (d : gmap string json) :
  dict_get d "hook_event_name"
    (py_or (dict_get d "type" (JStr "")) (JStr "notification"))
  = event_name_chain d.
Proof.
  unfold event_name_chain, dict_get, py_or.
  destruct (d !! "hook_event_name"); [reflexivity|].
  by destruct (d !! "type").
Qed.

Lemma presentation_generic d :
  is_generic (dict_get d "type" (JStr "")) = true →
  build_presentation (JObj d) (dict_get d "type" (JStr ""))
  = (let name := event_name_chain d in
     let raw_message :=
       if truthy (dict_get d "message" (JStr ""))
       then dict_get d "message" (JStr "")
       else JStr ("Codex event: " +:+ py_str name) in
     '(priority, title, tags) ← analyze_message_content raw_message name;
     mret (title, raw_message, priority, tags, name)).
Proof.
  unfold is_generic, build_presentation. intros Hgen.
  apply andb_prop in Hgen as [H1 H2].
  apply negb_true_iff in H1, H2. rewrite H1, H2.
  cbn [py_get mbind result_bind mret result_ret].
  rewrite event_name_is_chain.
  by destruct (truthy (dict_get d "message" (JStr ""))).
Qed.

(** C1, as the code has it: the enrichment step is applied on the two
    special paths as well.  For a tool-permission-request or
    prompt-idle-timeout event, what is handed to [send_notification] is the
    built message followed by " (<type>)" and by the git status when it is
    not "clean". *)
Theorem special_events_are_enriched stdin d pi ty title body prio tags :
  json_loads stdin = Ok (JObj d) →
  get_project_context_ret (dict_get d "cwd" (JStr "")) HOOK_NAME = Ok pi →
  d !! "type" = Some (JStr ty) →
  (ty = "tool-permission-request"
   ∧ build_tool_permission_notification (JObj d) = Ok (title, body, prio, tags))
  ∨ (ty = "prompt-idle-timeout"
     ∧ build_idle_timeout_notification (JObj d) = Ok (title, body, prio, tags)) →
  notifications_sent (trace (main stdin))
  = [(body +:+ " (" +:+ ty +:+ ")" +:+ status_suffix pi, title, prio, tags)].
Proof.
  intros Hloads Hctx Htype [[-> Hbuild] | [-> Hbuild]].
  - rewrite (main_sends _ _ _ _ _ _ _ _ Hloads Hctx
               (presentation_tool_permission _ _ _ _ _ Htype Hbuild)).
    by rewrite format_decompose.
  - rewrite (main_sends _ _ _ _ _ _ _ _ Hloads Hctx
               (presentation_idle_timeout _ _ _ _ _ Htype Hbuild)).
    by rewrite format_decompose.
Qed.

(** C6: the formatted message is the message, the event-name suffix and
    the status suffix, and the status suffix is " • <git_status>" exactly
    when the git status is not "clean".  In that case the formatted
    message ends with " • <git_status>"; when the git status is "clean"
    the status suffix is empty, so that nothing follows the event-name
    suffix (and the formatted message cannot end with " • clean" when the
    event name is not empty).  Every message handed to
    [send_notification] is formatted in this way. *)
Theorem git_status_suffix :
  (∀ body name pi,
     format_notification_message body name pi
     = py_str body +:+ event_suffix name +:+ status_suffix pi
     ∧ (status_suffix pi = " • " +:+ git_status pi ↔ git_status pi ≠ "clean")
     ∧ (git_status pi ≠ "clean" →
        endswith (format_notification_message body name pi)
          (" • " +:+ git_status pi) = true)
     ∧ (git_status pi = "clean" →
        status_suffix pi = ""
        ∧ format_notification_message body name pi
          = py_str body +:+ event_suffix name
        ∧ (truthy name = true →
           endswith (format_notification_message body name pi)
             (" • " +:+ git_status pi) = false)))
  ∧ (∀ stdin m ti p tg pi sid h,
       In (CallSendNotification m ti p tg pi sid h) (trace (main stdin)) →
       ∃ body name, m = format_notification_message body name pi).
Proof.
  split; [|apply main_sends_formatted].
  intros body name pi. rewrite format_decompose. split; [reflexivity|].
  split; [|split].
  - split; [|apply status_suffix_dirty].
    intros Hsuffix Hclean. rewrite (status_suffix_clean _ Hclean) in Hsuffix.
    discriminate Hsuffix.
  - intros Hne. rewrite (status_suffix_dirty _ Hne).
    rewrite <- append_assoc. apply endswith_append.
  - intros Heq. rewrite (status_suffix_clean _ Heq), append_nil_r, Heq.
    split; [reflexivity|]. split; [reflexivity|]. intros Hname.
    apply not_true_is_false. intros [before Hend]%endswith_spec.
    unfold event_suffix in Hend. rewrite Hname in Hend.
    change (before +:+ " • " +:+ "clean")
      with (before +:+ " • clea" +:+ String "n" "") in Hend.
    rewrite <- !append_assoc in Hend.
    by apply append_last_byte in Hend.
Qed.

(** C7: on the generic path, when the event has no [message] field the
    text is "Codex event: <name>", where the name is the [hook_event_name]
    field, else the type (when there is one and it is not empty), else
    "notification"; this text is classified, logged and, after the
    enrichment step, delivered.  The event of the specification, a message
    "Task completed successfully" with neither name nor type and a clean
    tree, is delivered as "Task completed successfully (notification)"
    under the title "<ProjectTitle>: Task Completed" with priority
    "default". *)
Theorem generic_event_presentation :
  (∀ stdin d pi,
     json_loads stdin = Ok (JObj d) →
     get_project_context_ret (dict_get d "cwd" (JStr "")) HOOK_NAME = Ok pi →
     is_generic (dict_get d "type" (JStr "")) = true →
     d !! "message" = None →
     ∃ priority title tags,
       analyze_message_content
         (JStr ("Codex event: " +:+ py_str (event_name_chain d)))
         (event_name_chain d) = Ok (priority, title, tags)
       ∧ notifications_sent (trace (main stdin))
         = [(format_notification_message
               (JStr ("Codex event: " +:+ py_str (event_name_chain d)))
               (event_name_chain d) pi, title, priority, tags)]
       ∧ In (CallLog ("Message: Codex event: " +:+ py_str (event_name_chain d))
               HOOK_NAME) (trace (main stdin)))
  ∧ (∀ stdin pi,
       json_loads stdin = Ok (JObj completed_event) →
       get_project_context_ret (JStr "/tmp") HOOK_NAME = Ok pi →
       git_status pi = "clean" →
       notifications_sent (trace (main stdin))
       = [("Task completed successfully (notification)",
           PROJECT_TITLE +:+ ": Task Completed", "default",
           ["white_check_mark"; "gear"; PROJECT_TAG])]).
Proof.
  split.
  - intros stdin d pi Hloads Hctx Hgen Hmsg.
    pose proof (presentation_generic d Hgen) as Hpres.
    rewrite (dict_get_none _ _ _ Hmsg) in Hpres.
    change (truthy (JStr "")) with false in Hpres. cbv zeta iota in Hpres.
    rewrite analyze_is_first_match in Hpres |- *.
    destruct (classify_by_rules _) as [[priority title] tags].
    cbn [mbind result_bind mret result_ret] in Hpres.
    exists priority, title, tags. split; [reflexivity|].
    split; [exact (main_sends _ _ _ _ _ _ _ _ Hloads Hctx Hpres)|].
    destruct (main_delivery _ _ _ _ _ _ _ _ Hloads Hctx Hpres) as (rest & -> & _).
    cbn [py_str]. cbn [In app]. tauto.
  - intros stdin pi Hloads Hctx Hclean.
    erewrite main_sends; [|exact Hloads|exact Hctx|].
    2: { rewrite presentation_generic by reflexivity.
         change (event_name_chain _) with (JStr "notification").
         change (dict_get _ "message" (JStr ""))
           with (JStr "Task completed successfully").
         change (truthy (JStr "Task completed successfully")) with true.
         cbv zeta iota. rewrite analyze_is_first_match.
         unfold classify_by_rules.
         change (first_match (lower "Task completed successfully") keyword_rules)
           with ("default", "Task Completed", ["white_check_mark"; "gear"]).
         reflexivity. }
    rewrite format_decompose, (status_suffix_clean _ Hclean). reflexivity.
Qed.

(** C4: a message in which "permission" occurs, whatever its case, is
    classified with priority "high" and the title "<ProjectTitle>:
    Permission Required", whatever other keywords it contains; the
    classifier is exactly the search, in the order permission/approval,
    error/failed, waiting/idle, blocked/hook, completed/finished, for the
    first rule with a keyword in the lowered message; and an event of the
    generic path with such a message is delivered with that title and
    priority. *)
Theorem permission_takes_precedence :
  (∀ (message : string) (hook_event_name : json),
     (∃ before after, lower message = before +:+ "permission" +:+ after) →
     analyze_message_content (JStr message) hook_event_name
       = Ok ("high", PROJECT_TITLE +:+ ": Permission Required",
             ["warning"; "key"; PROJECT_TAG])
     ∧ endswith (PROJECT_TITLE +:+ ": Permission Required")
         "Permission Required" = true)
  ∧ (∀ (message : string) (hook_event_name : json),
       analyze_message_content (JStr message) hook_event_name
       = Ok (classify_by_rules message))
  ∧ (∀ stdin d pi message,
       json_loads stdin = Ok (JObj d) →
       get_project_context_ret (dict_get d "cwd" (JStr "")) HOOK_NAME = Ok pi →
       is_generic (dict_get d "type" (JStr "")) = true →
       d !! "message" = Some (JStr message) →
       (∃ before after, lower message = before +:+ "permission" +:+ after) →
       notifications_sent (trace (main stdin))
       = [(format_notification_message (JStr message) (event_name_chain d) pi,
           PROJECT_TITLE +:+ ": Permission Required", "high",
           ["warning"; "key"; PROJECT_TAG])]).
Proof.
  assert (∀ (message : string) (hook_event_name : json),
     (∃ before after, lower message = before +:+ "permission" +:+ after) →
     analyze_message_content (JStr message) hook_event_name
       = Ok ("high", PROJECT_TITLE +:+ ": Permission Required",
             ["warning"; "key"; PROJECT_TAG])) as Hhigh.
  { intros message hook_event_name Hin. apply contains_spec in Hin.
    unfold analyze_message_content, py_lower.
    cbn [mbind result_bind mret result_ret]. by rewrite Hin. }
  split; [|split; [apply analyze_is_first_match|]].
  - intros message hook_event_name Hin. split; [by apply Hhigh|].
    apply endswith_spec. exists (PROJECT_TITLE +:+ ": ").
    by rewrite append_assoc.
  - intros stdin d pi message Hloads Hctx Hgen Hmsg Hin.
    apply (main_sends _ _ _ _ _ _ _ _ Hloads Hctx).
    rewrite (presentation_generic d Hgen), (dict_get_some _ _ _ _ Hmsg).
    assert (truthy (JStr message) = true) as ->.
    { apply truthy_str. intros ->. destruct Hin as ([|? ?] & after & Hin);
        discriminate Hin. }
    cbv zeta iota. by rewrite (Hhigh _ _ Hin).
Qed.

(** *** Further properties of the driver *)

(** X6: a run hands at most one notification to [send_notification]: one
    when the event is a JSON object, the project context is fetched and
    the presentation is built, and none otherwise; and without a delivery
    no sound is played. *)
Theorem delivery_attempts (stdin : string) :
  notifications_sent (trace (main stdin))
  = match json_loads stdin with
    | Ok (JObj d) =>
        match get_project_context_ret (dict_get d "cwd" (JStr "")) HOOK_NAME with
        | Ok pi =>
            match build_presentation (JObj d) (dict_get d "type" (JStr "")) with
            | Ok (title, body, priority, tags, name) =>
                [(format_notification_message body name pi, title, priority, tags)]
            | Raise _ => []
            end
        | Raise _ => []
        end
    | _ => []
    end
  ∧ (notifications_sent (trace (main stdin)) = [] →
     audio_played (trace (main stdin)) = []).
Proof.
  unfold_main. split_run; split; (reflexivity || discriminate).
Qed.

(** X7: every call of a run carries the hook name "notification-hook";
    the project context is asked for the [cwd] field of the event
    (default: empty), and a notification carries the [session_id] field
    (default: "unknown") and the project context fetched for that
    [cwd]. *)
Theorem calls_carry_event_data (stdin : string) :
  Forall (λ c, hook_name_of c = "notification-hook") (trace (main stdin))
  ∧ (∀ cwd h,
       In (CallGetProjectContext cwd h) (trace (main stdin)) →
       ∃ d, json_loads stdin = Ok (JObj d) ∧ cwd = dict_get d "cwd" (JStr ""))
  ∧ (∀ m ti p tg pi sid h,
       In (CallSendNotification m ti p tg pi sid h) (trace (main stdin)) →
       ∃ d, json_loads stdin = Ok (JObj d)
            ∧ sid = dict_get d "session_id" (JStr "unknown")
            ∧ get_project_context_ret (dict_get d "cwd" (JStr "")) HOOK_NAME
              = Ok pi).
Proof.
  unfold_main. split_run; (split; [repeat constructor | split]);
    cbn [In]; intros; 
    repeat match goal with
      | H : _ ∨ _ |- _ => destruct H
      | H : False |- _ => destruct H
      | H : CallSendNotification _ _ _ _ _ _ _ = CallSendNotification _ _ _ _ _ _ _ |- _ =>
          injection H as <- <- <- <- <- <- <-
      | H : CallGetProjectContext _ _ = CallGetProjectContext _ _ |- _ =>
          injection H as <- <-
      | H : _ = CallSendNotification _ _ _ _ _ _ _ |- _ => discriminate H
      | H : _ = CallGetProjectContext _ _ |- _ => discriminate H
      end; eauto.
Qed.

(** X8: once the presentation is built the run is: two log entries, the
    fetch of the project context, the log entry "Message: <message>" with
    the message before enrichment, the delivery; then, on success, a log
    entry and the sound, and on a reported failure the log entry "Failed
    to send notification".  When the delivery or the sound raises an
    [Exception] the five entries of the handler follow and the entry point
    returns normally; when it raises anything else the run stops there and
    the exception propagates. *)
Theorem delivery_outcomes stdin d pi title body prio tags name :
  json_loads stdin = Ok (JObj d) →
  get_project_context_ret (dict_get d "cwd" (JStr "")) HOOK_NAME = Ok pi →
  build_presentation (JObj d) (dict_get d "type" (JStr ""))
    = Ok (title, body, prio, tags, name) →
  main stdin
  = match send_notification_ret (format_notification_message body name pi)
            title prio tags pi (dict_get d "session_id" (JStr "unknown"))
            HOOK_NAME with
    | Ok true =>
        match play_audio_ret "toasty.mp3" HOOK_NAME with
        | Ok _ =>
            (calls_until_delivery d pi title body prio tags name ++
             [CallLog "Notification sent successfully" HOOK_NAME;
              CallPlayAudio "toasty.mp3" HOOK_NAME], Ok tt)
        | Raise e =>
            if is_exception e then
              (calls_until_delivery d pi title body prio tags name ++
               [CallLog "Notification sent successfully" HOOK_NAME;
                CallPlayAudio "toasty.mp3" HOOK_NAME] ++
               trace (main_except e), Ok tt)
            else
              (calls_until_delivery d pi title body prio tags name ++
               [CallLog "Notification sent successfully" HOOK_NAME;
                CallPlayAudio "toasty.mp3" HOOK_NAME], Raise e)
        end
    | Ok false =>
        (calls_until_delivery d pi title body prio tags name ++
         [CallLog "Failed to send notification" HOOK_NAME], Ok tt)
    | Raise e =>
        if is_exception e then
          (calls_until_delivery d pi title body prio tags name ++
           trace (main_except e), Ok tt)
        else (calls_until_delivery d pi title body prio tags name, Raise e)
    end.
Proof.
  intros Hloads Hctx Hpres. unfold_main.
  rewrite Hloads. step_run. rewrite Hctx, Hpres.
  unfold calls_until_delivery. change NOTIFICATION_AUDIO_FILE with "toasty.mp3".
  split_run; try match goal with a : unit |- _ => destruct a end; reflexivity.
Qed.

Lemma main_not_an_object stdin v :
  json_loads stdin = Ok v →
  (∀ d, v ≠ JObj d) →
  main stdin = (trace (main_except (AttributeError v "get")), Ok tt).
Proof.
  intros Hloads Hv. unfold_main. rewrite Hloads.
  destruct v; try reflexivity. by destruct (Hv m).
Qed.

Lemma main_context_fails stdin d e :
  json_loads stdin = Ok (JObj d) →
  get_project_context_ret (dict_get d "cwd" (JStr "")) HOOK_NAME = Raise e →
  main stdin
  = if is_exception e
    then (calls_until_context d ++ trace (main_except e), Ok tt)
    else (calls_until_context d, Raise e).
Proof.
  intros Hloads Hctx. unfold_main. rewrite Hloads. step_run. rewrite Hctx.
  by destruct e.
Qed.

Lemma main_presentation_fails stdin d pi e :
  json_loads stdin = Ok (JObj d) →
  get_project_context_ret (dict_get d "cwd" (JStr "")) HOOK_NAME = Ok pi →
  build_presentation (JObj d) (dict_get d "type" (JStr "")) = Raise e →
  main stdin = (calls_until_context d ++ trace (main_except e), Ok tt).
Proof.
  intros Hloads Hctx Hpres.
  pose proof (build_presentation_exception _ _ _ Hpres) as He.
  unfold_main. rewrite Hloads. step_run. rewrite Hctx, Hpres.
  by destruct e.
Qed.

(** X9: the failures before the delivery.  An event that is valid JSON
    but not an object stops the run at the first [get], with an
    [AttributeError] and no call but the five log entries of the handler.
    When [get_project_context] raises, the run is the two log entries and
    the fetch of the project context, then the five entries of the handler
    and a normal return for an [Exception], and the propagation of
    anything else.  When the presentation cannot be built, which is always
    by an [Exception], the run is the two log entries, the fetch of the
    project context and the five entries of the handler. *)
Theorem early_failures (stdin : string) :
  (∀ v, json_loads stdin = Ok v → (∀ d, v ≠ JObj d) →
     main stdin = (trace (main_except (AttributeError v "get")), Ok tt))
  ∧ (∀ d e,
       json_loads stdin = Ok (JObj d) →
       get_project_context_ret (dict_get d "cwd" (JStr "")) HOOK_NAME = Raise e →
       main stdin
       = if is_exception e
         then (calls_until_context d ++ trace (main_except e), Ok tt)
         else (calls_until_context d, Raise e))
  ∧ (∀ d pi e,
       json_loads stdin = Ok (JObj d) →
       get_project_context_ret (dict_get d "cwd" (JStr "")) HOOK_NAME = Ok pi →
       build_presentation (JObj d) (dict_get d "type" (JStr "")) = Raise e →
       is_exception e = true
       ∧ main stdin = (calls_until_context d ++ trace (main_except e), Ok tt)).
Proof.
  split; [|split].
  - apply main_not_an_object.
  - apply main_context_fails.
  - intros d pi e Hloads Hctx Hpres. split.
    + exact (build_presentation_exception _ _ _ Hpres).
    + exact (main_presentation_fails _ _ _ _ Hloads Hctx Hpres).
Qed.

(** X10: on the generic path a [message] field that is not a string, and
    not empty either, cannot be classified: [lower] raises an
    [AttributeError], nothing is delivered and the handler logs the
    exception. *)
Theorem non_string_message_is_rejected stdin d pi v :
  json_loads stdin = Ok (JObj d) →
  get_project_context_ret (dict_get d "cwd" (JStr "")) HOOK_NAME = Ok pi →
  is_generic (dict_get d "type" (JStr "")) = true →
  d !! "message" = Some v →
  truthy v = true →
  is_str v = false →
  build_presentation (JObj d) (dict_get d "type" (JStr ""))
    = Raise (AttributeError v "lower")
  ∧ notifications_sent (trace (main stdin)) = []
  ∧ In (CallLog "✗ Exception type: AttributeError" HOOK_NAME)
       (trace (main stdin)).
Proof.
  intros Hloads Hctx Hgen Hmsg Htruthy Hstr.
  assert (build_presentation (JObj d) (dict_get d "type" (JStr ""))
          = Raise (AttributeError v "lower")) as Hpres.
  { rewrite (presentation_generic d Hgen), (dict_get_some _ _ _ _ Hmsg), Htruthy.
    cbv zeta iota. by destruct v. }
  split; [exact Hpres|].
  rewrite (main_presentation_fails _ _ _ _ Hloads Hctx Hpres).
  rewrite main_except_run. cbn [trace fst]. split; [reflexivity|].
  apply in_or_app. right. cbn [In exn_class AttributeError]. tauto.
Qed.

(** X14: on the generic path a message that is a non-empty string is
    classified and delivered as it is, with the event name appended; a
    message that is present but empty (or null, or zero) is replaced by
    "Codex event: <name>" exactly as an absent one. *)
Theorem generic_message_delivery stdin d pi :
  json_loads stdin = Ok (JObj d) →
  get_project_context_ret (dict_get d "cwd" (JStr "")) HOOK_NAME = Ok pi →
  is_generic (dict_get d "type" (JStr "")) = true →
  (∀ message,
     d !! "message" = Some (JStr message) → message ≠ "" →
     ∃ priority title tags,
       classify_by_rules message = (priority, title, tags)
       ∧ notifications_sent (trace (main stdin))
         = [(message +:+ event_suffix (event_name_chain d) +:+ status_suffix pi,
             title, priority, tags)])
  ∧ (truthy (dict_get d "message" (JStr "")) = false →
     ∃ priority title tags,
       classify_by_rules ("Codex event: " +:+ py_str (event_name_chain d))
       = (priority, title, tags)
       ∧ notifications_sent (trace (main stdin))
         = [(("Codex event: " +:+ py_str (event_name_chain d)) +:+
             event_suffix (event_name_chain d) +:+ status_suffix pi,
             title, priority, tags)]).
Proof.
  intros Hloads Hctx Hgen.
  pose proof (presentation_generic d Hgen) as Hpres. cbv zeta in Hpres.
  split.
  - intros message Hmsg Hne.
    rewrite (dict_get_some _ _ _ _ Hmsg),
      (proj2 (truthy_str message) Hne), analyze_is_first_match in Hpres.
    destruct (classify_by_rules message) as [[priority title] tags].
    exists priority, title, tags. split; [reflexivity|].
    rewrite (main_sends _ _ _ _ _ _ _ _ Hloads Hctx Hpres).
    by rewrite format_decompose.
  - intros Hfalsy.
    rewrite Hfalsy, analyze_is_first_match in Hpres.
    destruct (classify_by_rules _) as [[priority title] tags].
    exists priority, title, tags. split; [reflexivity|].
    rewrite (main_sends _ _ _ _ _ _ _ _ Hloads Hctx Hpres).
    by rewrite format_decompose.
Qed.

Lemma dict_get_insert_ne (d : gmap string json) (k k' : string) (v default : json) :
  k ≠ k' → dict_get (<[k := v]> d) k' default = dict_get d k' default.
Proof. intros Hne. unfold dict_get. by rewrite lookup_insert_ne. Qed.

(** X15: the two special paths never read the fields of the generic path:
    putting any [message] or [hook_event_name] into a
    tool-permission-request or prompt-idle-timeout event changes nothing
    in its presentation; and the generic path never reads the fields of
    the two builders. *)
Theorem paths_read_their_own_fields (d : gmap string json) (hook_type v : json) :
  (is_generic hook_type = false →
   ∀ k, k = "message" ∨ k = "hook_event_name" →
     build_presentation (JObj (<[k := v]> d)) hook_type
     = build_presentation (JObj d) hook_type)
  ∧ (is_generic hook_type = true →
     ∀ k, In k ["approval_type"; "tool_name"; "reason"; "command"; "changes";
                "idle_duration_seconds"] →
       build_presentation (JObj (<[k := v]> d)) hook_type
       = build_presentation (JObj d) hook_type).
Proof.
  unfold is_generic, build_presentation. split.
  - intros Hspecial k Hk.
    destruct (py_eq hook_type "tool-permission-request").
    + rewrite !build_tool_permission_of_lines, !tool_permission_lines_unfold.
      unfold permission_header, reason_lines.
      destruct Hk as [-> | ->]; by rewrite !dict_get_insert_ne by discriminate.
    + destruct (py_eq hook_type "prompt-idle-timeout"); [|discriminate].
      unfold build_idle_timeout_notification. cbn [py_get].
      destruct Hk as [-> | ->]; by rewrite !dict_get_insert_ne by discriminate.
  - intros Hgen k Hk. apply andb_prop in Hgen as [H1 H2].
    apply negb_true_iff in H1, H2. rewrite H1, H2. cbn [py_get].
    cbn [In] in Hk.
    repeat destruct Hk as [<- | Hk]; try destruct Hk;
      by rewrite !dict_get_insert_ne by discriminate.
Qed.

End Driver.

(** * The hook on concrete events *)

#[local] Existing Instance demo_python.
#[local] Existing Instance demo_delivering.

(** C1, the claim refuted: a tool-permission-request event is not
    delivered with the message that its builder returned; the event name
    has been appended. *)
Lemma tool_permission_message_is_enriched :
  json_loads exec_doc = Ok (JObj exec_event)
  ∧ exec_event !! "type" = Some (JStr "tool-permission-request")
  ∧ build_tool_permission_notification (JObj exec_event)
    = Ok ("Codex: Permission Required",
          "Claude needs permission to use shell" +:+ nl +:+ "Command: ls -la",
          "high", ["warning"; "key"; "codex"])
  ∧ notifications_sent (trace (main exec_doc))
    = [("Claude needs permission to use shell" +:+ nl +:+
        "Command: ls -la (tool-permission-request)",
        "Codex: Permission Required", "high", ["warning"; "key"; "codex"])]
  ∧ "Claude needs permission to use shell" +:+ nl +:+
    "Command: ls -la (tool-permission-request)"
    ≠ "Claude needs permission to use shell" +:+ nl +:+ "Command: ls -la".
Proof. repeat split; try (vm_compute; reflexivity). discriminate. Qed.

Lemma special_events_are_enriched_witness :
  (json_loads patch_doc = Ok (JObj patch_event)
   ∧ get_project_context_ret (dict_get patch_event "cwd" (JStr "")) HOOK_NAME
     = Ok {| git_status := "2 modified"; other_fields := ∅ |}
   ∧ patch_event !! "type" = Some (JStr "tool-permission-request")
   ∧ build_tool_permission_notification (JObj patch_event)
     = Ok ("Codex: Permission Required",
           "Claude needs permission to use unknown" +:+ nl +:+
           "Files: a.py, b.py, c.py" +:+ nl +:+ "(+2 more)",
           "high", ["warning"; "key"; "codex"]))
  ∧ notifications_sent (trace (main patch_doc))
    = [(("Claude needs permission to use unknown" +:+ nl +:+
         "Files: a.py, b.py, c.py" +:+ nl +:+ "(+2 more)") +:+
        " (" +:+ "tool-permission-request" +:+ ")" +:+
        status_suffix {| git_status := "2 modified"; other_fields := ∅ |},
        "Codex: Permission Required", "high", ["warning"; "key"; "codex"])].
Proof.
  split; [repeat split; vm_compute; reflexivity|].
  apply (special_events_are_enriched patch_doc patch_event);
    [vm_compute; reflexivity .. |].
  left. split; vm_compute; reflexivity.
Defined.

Lemma patch_preview_lines_witness :
  (patch_event !! "approval_type" = Some (JStr "patch")
   ∧ patch_event !! "changes"
     = Some (JArr (JStr <$> ["a.py"; "b.py"; "c.py"; "d.py"; "e.py"]))
   ∧ 3 < length ["a.py"; "b.py"; "c.py"; "d.py"; "e.py"])
  ∧ ∃ lines,
      tool_permission_lines (JObj patch_event) = Ok lines
      ∧ build_tool_permission_notification (JObj patch_event)
        = Ok (PROJECT_TITLE +:+ ": Permission Required", join nl lines, "high",
              ["warning"; "key"; PROJECT_TAG])
      ∧ lines !! 1
        = Some ("Files: " +:+
                join ", " (take 3 ["a.py"; "b.py"; "c.py"; "d.py"; "e.py"]))
      ∧ lines !! 2
        = Some ("(+" +:+
                str_of_int
                  (Z.of_nat (length ["a.py"; "b.py"; "c.py"; "d.py"; "e.py"]) - 3)
                +:+ " more)")
      ∧ is_line_of
          ("Files: " +:+
           join ", " (take 3 ["a.py"; "b.py"; "c.py"; "d.py"; "e.py"]))
          (join nl lines)
      ∧ is_line_of
          ("(+" +:+
           str_of_int
             (Z.of_nat (length ["a.py"; "b.py"; "c.py"; "d.py"; "e.py"]) - 3)
           +:+ " more)")
          (join nl lines).
Proof.
  split; [repeat split; (reflexivity || (simpl; lia))|].
  apply (patch_preview_lines patch_event); [reflexivity | reflexivity | simpl; lia].
Defined.

(** C3, the claim refuted: an exec approval whose [command] field is
    present and empty gets no "Command: " line. *)
Lemma empty_command_has_no_line :
  empty_command_event !! "approval_type" = Some (JStr "exec")
  ∧ empty_command_event !! "command" = Some (JStr "")
  ∧ build_tool_permission_notification (JObj empty_command_event)
    = Ok ("Codex: Permission Required",
          "Claude needs permission to use unknown",
          "high", ["warning"; "key"; "codex"])
  ∧ ¬ is_line_of ("Command: " +:+ py_str (JStr ""))
        "Claude needs permission to use unknown".
Proof.
  repeat split; try (vm_compute; reflexivity).
  intros (before & after & Heq & _).
  assert (contains "Command: " "Claude needs permission to use unknown" = true)
    as Hin by (apply contains_spec; eauto).
  vm_compute in Hin. discriminate Hin.
Qed.

Lemma exec_command_line_witness :
  (exec_event !! "approval_type" = Some (JStr "exec")
   ∧ exec_event !! "command" = Some (JStr "ls -la")
   ∧ truthy (JStr "ls -la") = true)
  ∧ ∃ lines,
      tool_permission_lines (JObj exec_event) = Ok lines
      ∧ build_tool_permission_notification (JObj exec_event)
        = Ok (PROJECT_TITLE +:+ ": Permission Required", join nl lines, "high",
              ["warning"; "key"; PROJECT_TAG])
      ∧ lines !! 1 = Some ("Command: " +:+ py_str (JStr "ls -la"))
      ∧ is_line_of ("Command: " +:+ py_str (JStr "ls -la")) (join nl lines).
Proof.
  split; [repeat split; reflexivity|].
  apply (exec_command_line exec_event); reflexivity.
Defined.

Lemma permission_takes_precedence_witness :
  (∃ before after,
     lower "Permission granted, task completed"
     = before +:+ "permission" +:+ after)
  ∧ analyze_message_content (JStr "Permission granted, task completed")
      (JStr "notification")
    = Ok ("high", PROJECT_TITLE +:+ ": Permission Required",
          ["warning"; "key"; PROJECT_TAG])
  ∧ notifications_sent (trace (main permission_doc))
    = [(format_notification_message (JStr "Permission granted, task completed")
          (event_name_chain permission_event)
          {| git_status := "clean"; other_fields := ∅ |},
        PROJECT_TITLE +:+ ": Permission Required", "high",
        ["warning"; "key"; PROJECT_TAG])].
Proof.
  assert (∃ before after,
     lower "Permission granted, task completed"
     = before +:+ "permission" +:+ after) as Hin
    by (exists "", " granted, task completed"; reflexivity).
  destruct (@permission_takes_precedence demo_python demo_delivering)
    as (Hhigh & _ & Hmain).
  split; [exact Hin|]. split.
  - exact (proj1 (Hhigh _ (JStr "notification") Hin)).
  - apply (Hmain permission_doc permission_event); try reflexivity. exact Hin.
Defined.

Lemma git_status_suffix_witness :
  (git_status {| git_status := "2 modified"; other_fields := ∅ |} ≠ "clean"
   ∧ status_suffix {| git_status := "2 modified"; other_fields := ∅ |}
     = " • " +:+ "2 modified"
   ∧ endswith
       (format_notification_message (JStr "Codex event: session-start")
          (JStr "session-start")
          {| git_status := "2 modified"; other_fields := ∅ |})
       (" • " +:+ "2 modified") = true)
  ∧ (git_status {| git_status := "clean"; other_fields := ∅ |} = "clean"
     ∧ truthy (JStr "session-start") = true
     ∧ format_notification_message (JStr "Codex event: session-start")
         (JStr "session-start") {| git_status := "clean"; other_fields := ∅ |}
       = py_str (JStr "Codex event: session-start") +:+
         event_suffix (JStr "session-start")
     ∧ endswith
         (format_notification_message (JStr "Codex event: session-start")
            (JStr "session-start")
            {| git_status := "clean"; other_fields := ∅ |})
         (" • " +:+ "clean") = false)
  ∧ (In (CallSendNotification "Codex event: session-start (session-start)"
           "Codex: Notification" "default" ["bell"; "info"; "codex"]
           {| git_status := "clean"; other_fields := ∅ |} (JStr "unknown")
           HOOK_NAME)
        (trace (main session_start_doc))
     ∧ ∃ body name,
         "Codex event: session-start (session-start)"
         = format_notification_message body name
             {| git_status := "clean"; other_fields := ∅ |}).
Proof.
  destruct (@git_status_suffix demo_python demo_delivering) as [Hformat Hmain].
  assert (In (CallSendNotification "Codex event: session-start (session-start)"
           "Codex: Notification" "default" ["bell"; "info"; "codex"]
           {| git_status := "clean"; other_fields := ∅ |} (JStr "unknown")
           HOOK_NAME)
        (trace (main session_start_doc))) as Hin
    by (vm_compute; tauto).
  split; [|split].
  - assert (git_status {| git_status := "2 modified"; other_fields := ∅ |}
            ≠ "clean") as Hne by discriminate.
    destruct (Hformat (JStr "Codex event: session-start") (JStr "session-start")
                {| git_status := "2 modified"; other_fields := ∅ |})
      as (_ & Hiff & Hdirty & _).
    split; [exact Hne|]. split; [exact (proj2 Hiff Hne) | exact (Hdirty Hne)].
  - destruct (Hformat (JStr "Codex event: session-start") (JStr "session-start")
                {| git_status := "clean"; other_fields := ∅ |})
      as (_ & _ & _ & Hclean).
    destruct (Hclean eq_refl) as (_ & Heq & Hend).
    split; [reflexivity|]. split; [reflexivity|].
    split; [exact Heq | exact (Hend eq_refl)].
  - split; [exact Hin|]. exact (Hmain _ _ _ _ _ _ _ _ Hin).
Defined.

Lemma generic_event_presentation_witness :
  (json_loads session_start_doc = Ok (JObj session_start_event)
   ∧ is_generic (dict_get session_start_event "type" (JStr "")) = true
   ∧ session_start_event !! "message" = None
   ∧ ∃ priority title tags,
       analyze_message_content
         (JStr ("Codex event: " +:+ py_str (event_name_chain session_start_event)))
         (event_name_chain session_start_event) = Ok (priority, title, tags)
       ∧ notifications_sent (trace (main session_start_doc))
         = [(format_notification_message
               (JStr ("Codex event: " +:+
                      py_str (event_name_chain session_start_event)))
               (event_name_chain session_start_event)
               {| git_status := "clean"; other_fields := ∅ |},
             title, priority, tags)]
       ∧ In (CallLog ("Message: Codex event: " +:+
                      py_str (event_name_chain session_start_event)) HOOK_NAME)
            (trace (main session_start_doc)))
  ∧ (json_loads completed_doc = Ok (JObj completed_event)
     ∧ notifications_sent (trace (main completed_doc))
       = [("Task completed successfully (notification)",
           PROJECT_TITLE +:+ ": Task Completed", "default",
           ["white_check_mark"; "gear"; PROJECT_TAG])]).
Proof.
  destruct (@generic_event_presentation demo_python demo_delivering)
    as [Hgeneric Hexample].
  split.
  - split; [reflexivity|]. split; [reflexivity|]. split; [reflexivity|].
    apply (Hgeneric session_start_doc session_start_event); reflexivity.
  - split; [reflexivity|].
    apply (Hexample completed_doc {| git_status := "clean"; other_fields := ∅ |});
      reflexivity.
Defined.

(** C8, the claim refuted: when [send_notification] is interrupted from
    the keyboard, the exception is not an [Exception]; the handler does not
    catch it, nothing is logged and the entry point raises. *)
Lemma interrupted_delivery_propagates :
  json_loads idle_doc = Ok (JObj idle_event)
  ∧ @send_notification_ret interrupted_notifications
      "Claude session idle for 45s (prompt-idle-timeout)" "Codex: Session Idle"
      "default" ["clock"; "codex"]
      {| git_status := "clean"; other_fields := ∅ |} (JStr "s1") HOOK_NAME
    = Raise (BaseExn "KeyboardInterrupt" "")
  ∧ @main demo_python interrupted_notifications idle_doc
    = ([CallLog "Processing Notification hook for session s1" HOOK_NAME;
        CallLog "Event: prompt-idle-timeout" HOOK_NAME;
        CallGetProjectContext (JStr "/tmp") HOOK_NAME;
        CallLog "Message: Claude session idle for 45s" HOOK_NAME;
        CallSendNotification
          "Claude session idle for 45s (prompt-idle-timeout)"
          "Codex: Session Idle" "default" ["clock"; "codex"]
          {| git_status := "clean"; other_fields := ∅ |} (JStr "s1") HOOK_NAME],
       Raise (BaseExn "KeyboardInterrupt" ""))
  ∧ outcome (@main demo_python interrupted_notifications idle_doc) ≠ Ok tt.
Proof. repeat split; try (vm_compute; reflexivity). discriminate. Qed.

Lemma main_suppresses_exceptions_witness :
  (json_loads "not json"
   = Raise (Exn "JSONDecodeError" "Expecting value: line 1 column 1 (char 0)")
   ∧ is_exception
       (Exn "JSONDecodeError" "Expecting value: line 1 column 1 (char 0)")
     = true)
  ∧ main "not json"
    = ([CallLog "✗ Hook error: Expecting value: line 1 column 1 (char 0)"
          HOOK_NAME;
        CallLog "✗ Exception type: JSONDecodeError" HOOK_NAME;
        CallLog "✗ Exception details: Expecting value: line 1 column 1 (char 0)"
          HOOK_NAME;
        CallLog "✗ Full traceback:" HOOK_NAME;
        CallLog "Traceback (most recent call last): JSONDecodeError" HOOK_NAME],
       Ok tt)
  ∧ outcome (main (dq "[1, 2]")) = Ok tt.
Proof.
  split; [split; reflexivity|]. split.
  - exact (proj1 (proj2 (@main_suppresses_exceptions demo_python demo_delivering
                           "not json")) _ eq_refl eq_refl).
  - apply (proj2 (proj2 (proj2 (@main_suppresses_exceptions demo_python
                                  demo_delivering (dq "[1, 2]"))))).
    + intros e He. vm_compute in He. discriminate He.
    + intros cwd h e He. discriminate He.
    + intros m ti p tg pi sid h e He. discriminate He.
    + intros f h e He. discriminate He.
Defined.

(** ** Further examples *)

Lemma permission_message_shape_witness :
  tool_permission_lines (JObj short_patch_event)
  = Ok ["Claude needs permission to use apply_patch"; "Files: a.py, b.py";
        "Reason: refactor"]
  ∧ last ["Claude needs permission to use apply_patch"; "Files: a.py, b.py";
          "Reason: refactor"]
    = Some ("Reason: " +:+ py_str (dict_get short_patch_event "reason" JNull))
  ∧ build_tool_permission_notification (JObj short_patch_event)
    = Ok (PROJECT_TITLE +:+ ": Permission Required",
          join nl ["Claude needs permission to use apply_patch";
                   "Files: a.py, b.py"; "Reason: refactor"],
          "high", ["warning"; "key"; PROJECT_TAG]).
Proof.
  assert (tool_permission_lines (JObj short_patch_event)
          = Ok ["Claude needs permission to use apply_patch";
                "Files: a.py, b.py"; "Reason: refactor"]) as Hlines
    by reflexivity.
  destruct (permission_message_shape short_patch_event _ Hlines)
    as (_ & _ & Hlast & Hbuild).
  split; [exact Hlines|]. split; [exact (Hlast eq_refl) | exact Hbuild].
Defined.

Lemma patch_lists_up_to_three_witness :
  (short_patch_event !! "approval_type" = Some (JStr "patch")
   ∧ short_patch_event !! "changes" = Some (JArr (JStr <$> ["a.py"; "b.py"]))
   ∧ ["a.py"; "b.py"] ≠ []
   ∧ (length ["a.py"; "b.py"] ≤ 3)%nat)
  ∧ tool_permission_lines (JObj short_patch_event)
    = Ok (permission_header short_patch_event
          :: ("Files: " +:+ join ", " ["a.py"; "b.py"])
          :: reason_lines short_patch_event).
Proof.
  split; [repeat split; (reflexivity || discriminate || (simpl; lia))|].
  apply (patch_lists_up_to_three short_patch_event);
    [reflexivity | reflexivity | discriminate | simpl; lia].
Defined.

Lemma permission_header_only_witness :
  (py_eq (dict_get review_event "approval_type" (JStr "unknown")) "exec" = false
   ∧ py_eq (dict_get review_event "approval_type" (JStr "unknown")) "patch"
     = false)
  ∧ tool_permission_lines (JObj review_event)
    = Ok (permission_header review_event :: reason_lines review_event).
Proof.
  split; [split; reflexivity|].
  apply (permission_header_only review_event). left. split; reflexivity.
Defined.

Lemma patch_counts_the_rest_witness :
  (mixed_patch_event !! "approval_type" = Some (JStr "patch")
   ∧ mixed_patch_event !! "changes"
     = Some (JArr (JStr "a.py" :: JStr "b.py" :: JStr "c.py" :: [JInt 7; JNull])))
  ∧ tool_permission_lines (JObj mixed_patch_event)
    = Ok (permission_header mixed_patch_event
          :: ("Files: " +:+ "a.py" +:+ ", " +:+ "b.py" +:+ ", " +:+ "c.py")
          :: ["(+" +:+ str_of_int (Z.of_nat (length [JInt 7; JNull])) +:+ " more)"]
          ++ reason_lines mixed_patch_event).
Proof.
  split; [split; reflexivity|].
  apply (patch_counts_the_rest mixed_patch_event "a.py" "b.py" "c.py"
           [JInt 7; JNull]); reflexivity.
Defined.

Lemma patch_rejects_non_string_entries_witness :
  (bad_patch_event !! "approval_type" = Some (JStr "patch")
   ∧ bad_patch_event !! "changes" = Some (JArr [JStr "a.py"; JInt 7])
   ∧ forallb is_str (take 3 [JStr "a.py"; JInt 7]) = false)
  ∧ ∃ text,
      build_tool_permission_notification (JObj bad_patch_event)
      = Raise (Exn "TypeError" text).
Proof.
  split; [repeat split; reflexivity|].
  apply (patch_rejects_non_string_entries bad_patch_event [JStr "a.py"; JInt 7]);
    reflexivity.
Defined.

Lemma permission_builder_agrees_with_classifier_witness :
  build_tool_permission_notification (JObj exec_event)
  = Ok ("Codex: Permission Required",
        "Claude needs permission to use shell" +:+ nl +:+ "Command: ls -la",
        "high", ["warning"; "key"; "codex"])
  ∧ analyze_message_content
      (JStr ("Claude needs permission to use shell" +:+ nl +:+ "Command: ls -la"))
      (JStr "tool-permission-request")
    = Ok ("high", "Codex: Permission Required", ["warning"; "key"; "codex"]).
Proof.
  assert (build_tool_permission_notification (JObj exec_event)
          = Ok ("Codex: Permission Required",
                "Claude needs permission to use shell" +:+ nl +:+
                "Command: ls -la",
                "high", ["warning"; "key"; "codex"])) as Hbuild
    by (vm_compute; reflexivity).
  split; [exact Hbuild|].
  exact (permission_builder_agrees_with_classifier exec_event _ _ _ _
           (JStr "tool-permission-request") Hbuild).
Defined.

Lemma enrichment_only_appends_witness :
  (truthy (JStr "") = false
   ∧ git_status {| git_status := "clean"; other_fields := ∅ |} = "clean")
  ∧ format_notification_message (JStr "build finished") (JStr "")
      {| git_status := "clean"; other_fields := ∅ |}
    = py_str (JStr "build finished").
Proof.
  split; [split; reflexivity|].
  exact (proj2 (proj2 (enrichment_only_appends (JStr "build finished") (JStr "")
                         {| git_status := "clean"; other_fields := ∅ |}))
           eq_refl eq_refl).
Defined.

Lemma delivery_attempts_witness :
  notifications_sent (trace (main "not json")) = []
  ∧ audio_played (trace (main "not json")) = [].
Proof.
  assert (notifications_sent (trace (main "not json")) = []) as Hnone
    by reflexivity.
  split; [exact Hnone|].
  exact (proj2 (delivery_attempts "not json") Hnone).
Defined.

Lemma calls_carry_event_data_witness :
  In (CallSendNotification "Claude session idle for 45s (prompt-idle-timeout)"
        "Codex: Session Idle" "default" ["clock"; "codex"]
        {| git_status := "clean"; other_fields := ∅ |} (JStr "s1") HOOK_NAME)
     (trace (main idle_doc))
  ∧ ∃ d, json_loads idle_doc = Ok (JObj d)
         ∧ JStr "s1" = dict_get d "session_id" (JStr "unknown")
         ∧ get_project_context_ret (dict_get d "cwd" (JStr "")) HOOK_NAME
           = Ok {| git_status := "clean"; other_fields := ∅ |}.
Proof.
  assert (In (CallSendNotification
                "Claude session idle for 45s (prompt-idle-timeout)"
                "Codex: Session Idle" "default" ["clock"; "codex"]
                {| git_status := "clean"; other_fields := ∅ |} (JStr "s1")
                HOOK_NAME)
             (trace (main idle_doc))) as Hin
    by (vm_compute; tauto).
  split; [exact Hin|].
  exact (proj2 (proj2 (calls_carry_event_data idle_doc)) _ _ _ _ _ _ _ Hin).
Defined.

Lemma delivery_outcomes_witness :
  (json_loads exec_doc = Ok (JObj exec_event)
   ∧ get_project_context_ret (dict_get exec_event "cwd" (JStr "")) HOOK_NAME
     = Ok {| git_status := "clean"; other_fields := ∅ |}
   ∧ build_presentation (JObj exec_event) (dict_get exec_event "type" (JStr ""))
     = Ok ("Codex: Permission Required",
           JStr ("Claude needs permission to use shell" +:+ nl +:+
                 "Command: ls -la"),
           "high", ["warning"; "key"; "codex"], JStr "tool-permission-request"))
  ∧ main exec_doc
    = (calls_until_delivery exec_event
         {| git_status := "clean"; other_fields := ∅ |}
         "Codex: Permission Required"
         (JStr ("Claude needs permission to use shell" +:+ nl +:+
                "Command: ls -la"))
         "high" ["warning"; "key"; "codex"] (JStr "tool-permission-request")
       ++ [CallLog "Notification sent successfully" HOOK_NAME;
           CallPlayAudio "toasty.mp3" HOOK_NAME],
       Ok tt)
  ∧ @main demo_python interrupted_notifications exec_doc
    = (@calls_until_delivery demo_python exec_event
         {| git_status := "clean"; other_fields := ∅ |}
         "Codex: Permission Required"
         (JStr ("Claude needs permission to use shell" +:+ nl +:+
                "Command: ls -la"))
         "high" ["warning"; "key"; "codex"] (JStr "tool-permission-request"),
       Raise (BaseExn "KeyboardInterrupt" "")).
Proof.
  split; [repeat split; vm_compute; reflexivity|]. split.
  - exact (delivery_outcomes exec_doc exec_event
             {| git_status := "clean"; other_fields := ∅ |}
             "Codex: Permission Required"
             (JStr ("Claude needs permission to use shell" +:+ nl +:+
                    "Command: ls -la"))
             "high" ["warning"; "key"; "codex"] (JStr "tool-permission-request")
             eq_refl eq_refl eq_refl).
  - exact (@delivery_outcomes demo_python interrupted_notifications
             exec_doc exec_event
             {| git_status := "clean"; other_fields := ∅ |}
             "Codex: Permission Required"
             (JStr ("Claude needs permission to use shell" +:+ nl +:+
                    "Command: ls -la"))
             "high" ["warning"; "key"; "codex"] (JStr "tool-permission-request")
             eq_refl eq_refl eq_refl).
Defined.

Lemma early_failures_witness :
  (json_loads (dq "[1, 2]") = Ok (JArr [JInt 1; JInt 2])
   ∧ main (dq "[1, 2]")
     = (trace (main_except (AttributeError (JArr [JInt 1; JInt 2]) "get")),
        Ok tt))
  ∧ (@get_project_context_ret (failing_notifications true false)
       (dict_get idle_event "cwd" (JStr "")) HOOK_NAME
     = Raise (Exn "OSError" "git not found")
     ∧ @main demo_python (failing_notifications true false) idle_doc
       = (@calls_until_context demo_python idle_event ++
          trace (@main_except demo_python (Exn "OSError" "git not found")),
          Ok tt))
  ∧ (∃ text,
       @build_presentation extra_python demo_delivering (JObj bad_patch_event)
         (dict_get bad_patch_event "type" (JStr ""))
       = Raise (Exn "TypeError" text)
       ∧ @main extra_python demo_delivering bad_patch_doc
         = (@calls_until_context extra_python bad_patch_event ++
            trace (@main_except extra_python (Exn "TypeError" text)),
            Ok tt)).
Proof.
  split; [|split].
  - split; [reflexivity|].
    apply (proj1 (early_failures (dq "[1, 2]"))); [reflexivity | discriminate].
  - split; [reflexivity|].
    exact (proj1 (proj2 (@early_failures demo_python
                           (failing_notifications true false) idle_doc))
             idle_event (Exn "OSError" "git not found") eq_refl eq_refl).
  - eexists. split; [vm_compute; reflexivity|].
    refine (proj2 (proj2 (proj2 (@early_failures extra_python demo_delivering
                                   bad_patch_doc))
                     bad_patch_event
                     {| git_status := "clean"; other_fields := ∅ |} _ _ _ _));
      vm_compute; reflexivity.
Defined.

Lemma non_string_message_is_rejected_witness :
  (@json_loads extra_python number_message_doc = Ok (JObj number_message_event)
   ∧ is_generic (dict_get number_message_event "type" (JStr "")) = true
   ∧ number_message_event !! "message" = Some (JInt 5)
   ∧ truthy (JInt 5) = true
   ∧ is_str (JInt 5) = false)
  ∧ @build_presentation extra_python demo_delivering (JObj number_message_event)
      (dict_get number_message_event "type" (JStr ""))
    = Raise (AttributeError (JInt 5) "lower")
  ∧ notifications_sent (trace (@main extra_python demo_delivering
                                 number_message_doc)) = []
  ∧ In (CallLog "✗ Exception type: AttributeError" HOOK_NAME)
       (trace (@main extra_python demo_delivering number_message_doc)).
Proof.
  split; [repeat split; reflexivity|].
  apply (@non_string_message_is_rejected extra_python demo_delivering
           number_message_doc number_message_event
           {| git_status := "clean"; other_fields := ∅ |} (JInt 5));
    reflexivity.
Defined.

Lemma generic_message_delivery_witness :
  (json_loads permission_doc = Ok (JObj permission_event)
   ∧ is_generic (dict_get permission_event "type" (JStr "")) = true
   ∧ permission_event !! "message"
     = Some (JStr "Permission granted, task completed")
   ∧ ∃ priority title tags,
       classify_by_rules "Permission granted, task completed"
       = (priority, title, tags)
       ∧ notifications_sent (trace (main permission_doc))
         = [("Permission granted, task completed" +:+
             event_suffix (event_name_chain permission_event) +:+
             status_suffix {| git_status := "clean"; other_fields := ∅ |},
             title, priority, tags)])
  ∧ (@json_loads extra_python empty_message_doc = Ok (JObj empty_message_event)
     ∧ truthy (dict_get empty_message_event "message" (JStr "")) = false
     ∧ ∃ priority title tags,
         @classify_by_rules demo_delivering
           ("Codex event: " +:+
            @py_str extra_python (event_name_chain empty_message_event))
         = (priority, title, tags)
         ∧ notifications_sent
             (trace (@main extra_python demo_delivering empty_message_doc))
           = [(("Codex event: " +:+
                @py_str extra_python (event_name_chain empty_message_event)) +:+
               @event_suffix extra_python (event_name_chain empty_message_event)
               +:+ status_suffix
                     {| git_status := "2 modified"; other_fields := ∅ |},
               title, priority, tags)]).
Proof.
  split.
  - split; [reflexivity|]. split; [reflexivity|]. split; [reflexivity|].
    refine (proj1 (generic_message_delivery permission_doc permission_event
                     {| git_status := "clean"; other_fields := ∅ |} _ _ _)
              _ _ _);
      (reflexivity || discriminate).
  - split; [reflexivity|]. split; [reflexivity|].
    refine (proj2 (@generic_message_delivery extra_python demo_delivering
                     empty_message_doc empty_message_event
                     {| git_status := "2 modified"; other_fields := ∅ |} _ _ _)
              _);
      reflexivity.
Defined.

Lemma paths_read_their_own_fields_witness :
  (is_generic (JStr "tool-permission-request") = false
   ∧ build_presentation (JObj (<["message" := JStr "approved"]> exec_event))
       (JStr "tool-permission-request")
     = build_presentation (JObj exec_event) (JStr "tool-permission-request"))
  ∧ (is_generic (JStr "session-start") = true
     ∧ build_presentation (JObj (<["command" := JStr "ls"]> session_start_event))
         (JStr "session-start")
       = build_presentation (JObj session_start_event) (JStr "session-start")).
Proof.
  split.
  - split; [reflexivity|].
    apply (proj1 (paths_read_their_own_fields exec_event
                    (JStr "tool-permission-request") (JStr "approved")));
      [reflexivity | by left].
  - split; [reflexivity|].
    apply (proj2 (paths_read_their_own_fields session_start_event
                    (JStr "session-start") (JStr "ls")));
      [reflexivity | cbn; tauto].
Defined.
